(** * Consent settings store and window-size persistence

    A shallow embedding of two front-end services of the application:

    - [ConsentManager] (analytics consent record kept in [localStorage]),
    - [WindowPersistenceService] (debounced capture and validated restore
      of the window size).

    The services are written against the browser and the desktop shell:
    [localStorage], [JSON], [Date], [Math.random], [setTimeout] and the
    window API.  Those are modelled by an explicit [World] that every
    operation threads through, by a result type that distinguishes normal
    completion from a thrown exception, and by a [Runtime] interface for
    the built-ins whose exact output is left to the engine.  Execution is
    single-threaded: an [await] inside a method is a sequencing point, not
    a place where other code runs.  Console output is not modelled.  The
    listeners that [initializeResizeListener] registers live in a [Page]
    around the world. *)

From Stdlib Require Import ZArith NArith List Bool Ascii String Lia.
From stdpp Require Import base option list gmap strings pretty.

Set Default Proof Using "Type".

(* ================================================================== *)
(** * JavaScript values *)
(* ================================================================== *)

(** The values that [JSON.parse] can produce, plus [undefined] (the result
    of reading a missing property).  Numbers are integers: the services
    only ever handle pixel counts and epoch milliseconds.  An object keeps
    its properties in insertion order; an array carries, besides its
    elements, the named properties that an assignment may add to it. *)
#[warnings="-register-all"]
Inductive JsVal : Type :=
  | JUndefined
  | JNull
  | JBool (b : bool)
  | JNum (n : Z)
  | JStr (s : string)
  | JArr (elems : list JsVal) (extra : list (string * JsVal))
  | JObj (props : list (string * JsVal)).

(** [!!v] *)
Definition truthy (v : JsVal) : bool :=
  match v with
  | JUndefined | JNull => false
  | JBool b => b
  | JNum n => negb (n =? 0)%Z
  | JStr s => negb (String.eqb s EmptyString)
  | JArr _ _ | JObj _ => true
  end.

(** [v === undefined] *)
Definition is_undefined (v : JsVal) : bool :=
  match v with JUndefined => true | _ => false end.

Fixpoint prop_lookup (k : string) (ps : list (string * JsVal)) : option JsVal :=
  match ps with
  | [] => None
  | (k', v) :: ps' => if String.eqb k k' then Some v else prop_lookup k ps'
  end.

(** Writing a property keeps the position of an existing key and appends
    a new one. *)
Fixpoint prop_store (k : string) (v : JsVal) (ps : list (string * JsVal))
  : list (string * JsVal) :=
  match ps with
  | [] => [(k, v)]
  | (k', v') :: ps' =>
      if String.eqb k k' then (k, v) :: ps' else (k', v') :: prop_store k v ps'
  end.

(** [v.k] for the property names the services use (none of which is
    [length] or an index).  [None] is the TypeError of reading a property
    of [null] or [undefined]. *)
Definition get_prop (v : JsVal) (k : string) : option JsVal :=
  match v with
  | JUndefined | JNull => None
  | JBool _ | JNum _ | JStr _ => Some JUndefined
  | JArr _ ps | JObj ps => Some (default JUndefined (prop_lookup k ps))
  end.

(** [v.k = x] in strict mode (class bodies and modules are strict):
    [None] is the TypeError raised for [null], [undefined] and for
    primitives, which cannot take a property. *)
Definition set_prop (v : JsVal) (k : string) (x : JsVal) : option JsVal :=
  match v with
  | JObj ps => Some (JObj (prop_store k x ps))
  | JArr es ps => Some (JArr es (prop_store k x ps))
  | _ => None
  end.

(** The property as a reader sees it: [undefined] when it cannot be read. *)
Definition field (v : JsVal) (k : string) : JsVal :=
  default JUndefined (get_prop v k).

(* ================================================================== *)
(** * The world the services run in *)
(* ================================================================== *)

Inductive JsError : Type :=
  | SyntaxError          (* JSON.parse *)
  | TypeError            (* property access on null, write to a primitive *)
  | StorageError         (* localStorage refuses the operation *)
  | PlatformError.       (* the window API is missing or rejects the call *)

(** Calls that leave the process, in the order they were issued.  A call
    is recorded when it is issued, whether or not it then fails. *)
Inductive Event : Type :=
  | EvSetItem (key value : string)
  | EvRemoveItem (key : string)
  | EvSetSize (width height : JsVal).

Record World : Type := mkWorld {
  (* localStorage: its content, and which operations throw *)
  ls_items : gmap string string;
  ls_get_throws : bool;
  ls_set_throws : bool;
  ls_remove_throws : bool;
  (* the platform window *)
  tauri_missing : bool;            (* getCurrentWindow() throws *)
  ipc_fails : bool;                (* innerSize() / setSize() reject *)
  win_size : Z * Z;                (* current inner size *)
  (* clock, random source, timer table *)
  now : Z;                         (* Date.now() *)
  rng : nat -> N;                  (* successive Math.random() draws *)
  rng_pos : nat;
  timers : list (positive * Z);    (* pending: (id, due time) *)
  next_timer : positive;
  (* the services' own state *)
  settings : JsVal;                (* ConsentManager.settings *)
  saveTimeout : option positive;   (* WindowPersistenceService.saveTimeout *)
  trace : list Event
}.

Definition with_items (f : gmap string string -> gmap string string) (w : World) :=
  mkWorld (f (ls_items w)) (ls_get_throws w) (ls_set_throws w) (ls_remove_throws w)
    (tauri_missing w) (ipc_fails w) (win_size w) (now w) (rng w) (rng_pos w)
    (timers w) (next_timer w) (settings w) (saveTimeout w) (trace w).

Definition with_win_size (sz : Z * Z) (w : World) :=
  mkWorld (ls_items w) (ls_get_throws w) (ls_set_throws w) (ls_remove_throws w)
    (tauri_missing w) (ipc_fails w) sz (now w) (rng w) (rng_pos w)
    (timers w) (next_timer w) (settings w) (saveTimeout w) (trace w).

Definition with_now (t : Z) (w : World) :=
  mkWorld (ls_items w) (ls_get_throws w) (ls_set_throws w) (ls_remove_throws w)
    (tauri_missing w) (ipc_fails w) (win_size w) t (rng w) (rng_pos w)
    (timers w) (next_timer w) (settings w) (saveTimeout w) (trace w).

Definition with_rng_pos (n : nat) (w : World) :=
  mkWorld (ls_items w) (ls_get_throws w) (ls_set_throws w) (ls_remove_throws w)
    (tauri_missing w) (ipc_fails w) (win_size w) (now w) (rng w) n
    (timers w) (next_timer w) (settings w) (saveTimeout w) (trace w).

Definition with_timers (ts : list (positive * Z)) (nx : positive) (w : World) :=
  mkWorld (ls_items w) (ls_get_throws w) (ls_set_throws w) (ls_remove_throws w)
    (tauri_missing w) (ipc_fails w) (win_size w) (now w) (rng w) (rng_pos w)
    ts nx (settings w) (saveTimeout w) (trace w).

Definition with_settings (s : JsVal) (w : World) :=
  mkWorld (ls_items w) (ls_get_throws w) (ls_set_throws w) (ls_remove_throws w)
    (tauri_missing w) (ipc_fails w) (win_size w) (now w) (rng w) (rng_pos w)
    (timers w) (next_timer w) s (saveTimeout w) (trace w).

Definition with_saveTimeout (t : option positive) (w : World) :=
  mkWorld (ls_items w) (ls_get_throws w) (ls_set_throws w) (ls_remove_throws w)
    (tauri_missing w) (ipc_fails w) (win_size w) (now w) (rng w) (rng_pos w)
    (timers w) (next_timer w) (settings w) t (trace w).

Definition emit (e : Event) (w : World) :=
  mkWorld (ls_items w) (ls_get_throws w) (ls_set_throws w) (ls_remove_throws w)
    (tauri_missing w) (ipc_fails w) (win_size w) (now w) (rng w) (rng_pos w)
    (timers w) (next_timer w) (settings w) (saveTimeout w) (trace w ++ [e]).

(* ================================================================== *)
(** * Computations that may throw *)
(* ================================================================== *)

Inductive Outcome (A : Type) : Type :=
  | Ret (a : A)
  | Throw (e : JsError).
Arguments Ret {A} a.
Arguments Throw {A} e.

Definition M (A : Type) : Type := World -> Outcome A * World.

Definition ret {A} (a : A) : M A := fun w => (Ret a, w).
Definition throw {A} (e : JsError) : M A := fun w => (Throw e, w).

Definition bind {A B} (m : M A) (k : A -> M B) : M B :=
  fun w => match m w with
           | (Ret a, w') => k a w'
           | (Throw e, w') => (Throw e, w')
           end.

(** [try { m } catch (error) { h error }] *)
Definition try_catch {A} (m : M A) (h : JsError -> M A) : M A :=
  fun w => match m w with
           | (Ret a, w') => (Ret a, w')
           | (Throw e, w') => h e w'
           end.

Notation "'let!' x ':=' m 'in' k" := (bind m (fun x => k))
  (at level 10, x name, m at level 100, k at level 200).
Notation "m ';>' k" := (bind m (fun _ => k))
  (at level 100, k at level 200, right associativity).

Definition when (b : bool) (m : M unit) : M unit := if b then m else ret tt.

Definition get_world : M World := fun w => (Ret w, w).
Definition modify (f : World -> World) : M unit := fun w => (Ret tt, f w).

(** Whether a run completed normally. *)
Definition returns {A} (r : Outcome A * World) : bool :=
  match r with (Ret _, _) => true | _ => false end.

(** [m] leaves the observation [f] of the world as it finds it, whether
    it returns or throws. *)
Definition keeps {A T} (f : World -> T) (m : M A) : Prop :=
  forall w, f (snd (m w)) = f w.

(* ================================================================== *)
(** * Platform operations *)
(* ================================================================== *)

Module localStorage.

Definition getItem (k : string) : M (option string) :=
  fun w => if ls_get_throws w then (Throw StorageError, w)
           else (Ret (ls_items w !! k), w).

Definition setItem (k v : string) : M unit :=
  fun w => let w1 := emit (EvSetItem k v) w in
           if ls_set_throws w then (Throw StorageError, w1)
           else (Ret tt, with_items (insert k v) w1).

Definition removeItem (k : string) : M unit :=
  fun w => let w1 := emit (EvRemoveItem k) w in
           if ls_remove_throws w then (Throw StorageError, w1)
           else (Ret tt, with_items (delete k) w1).

End localStorage.

(** [!s] for the result of [getItem]: [null] and the empty string. *)
Definition stored_truthy (o : option string) : bool :=
  match o with
  | Some s => negb (String.eqb s EmptyString)
  | None => false
  end.

(** [Math.random()]: the next draw.  A draw [k] stands for the double
    [k / 2^53] in [[0, 1)]. *)
Definition Math_random : M N :=
  fun w => (Ret (rng w (rng_pos w) mod 2 ^ 53)%N, with_rng_pos (S (rng_pos w)) w).

(** [Date.now()] *)
Definition Date_now : M Z := fun w => (Ret (now w), w).

(** [setTimeout(callback, delay)]: registers a timer and returns its id.
    Ids are positive, hence truthy. *)
Definition setTimeout (delay : Z) : M positive :=
  fun w => let id := next_timer w in
           (Ret id, with_timers (timers w ++ [(id, now w + delay)%Z]) (Pos.succ id) w).

Definition drop_timer (id : positive) (ts : list (positive * Z)) : list (positive * Z) :=
  List.filter (fun t => negb (Pos.eqb (fst t) id)) ts.

(** [clearTimeout(id)]: no effect when the timer is not pending. *)
Definition clearTimeout (id : positive) : M unit :=
  fun w => (Ret tt, with_timers (drop_timer id (timers w)) (next_timer w) w).

(** [getCurrentWindow()] *)
Definition getCurrentWindow : M unit :=
  fun w => if tauri_missing w then (Throw PlatformError, w) else (Ret tt, w).

(** [await window.innerSize()] *)
Definition innerSize : M (Z * Z) :=
  fun w => if ipc_fails w then (Throw PlatformError, w) else (Ret (win_size w), w).

(** [await window.setSize(new PhysicalSize(width, height))]: the platform
    takes numeric sizes only. *)
Definition setSize (width height : JsVal) : M unit :=
  fun w => let w1 := emit (EvSetSize width height) w in
           if ipc_fails w then (Throw PlatformError, w1)
           else match width, height with
                | JNum x, JNum y => (Ret tt, with_win_size (x, y) w1)
                | _, _ => (Throw PlatformError, w1)
                end.

(** The engine built-ins whose exact output is the engine's business. *)
Class Runtime : Type := {
  (** [JSON.parse]; [None] is the SyntaxError. *)
  JSON_parse : string -> option JsVal;
  (** [JSON.stringify] *)
  JSON_stringify : JsVal -> string;
  (** [new Date(t).toISOString()] *)
  Date_toISOString : Z -> string;
  (** [(k / 2^53).toString(36)] for a random draw [k] *)
  Number_toString36 : N -> string;
  (** [ToNumber] on strings and arrays; [None] is NaN. *)
  ToNumber_other : JsVal -> option Z
}.

(** [JSON.parse(s)] as a computation. *)
Definition parse_json `{Runtime} (s : string) : M JsVal :=
  match JSON_parse s with
  | Some v => ret v
  | None => throw SyntaxError
  end.

(** [this.settings.k = x] *)
Definition assign_settings (k : string) (x : JsVal) : M unit :=
  fun w => match set_prop (settings w) k x with
           | Some s' => (Ret tt, with_settings s' w)
           | None => (Throw TypeError, w)
           end.

(** Reading [v.k] as a computation. *)
Definition read_prop (v : JsVal) (k : string) : M JsVal :=
  match get_prop v k with
  | Some x => ret x
  | None => throw TypeError
  end.

(* ================================================================== *)
(** * ConsentManager *)
(* ================================================================== *)

Module ConsentManager.

Definition ANALYTICS_STORAGE_KEY : string := "claudia-analytics-settings".

(** The literal [{ enabled: false, hasConsented: false, hasSeenBanner: false }]. *)
Definition default_settings : JsVal :=
  JObj [("enabled", JBool false); ("hasConsented", JBool false);
        ("hasSeenBanner", JBool false)].

(** [v.toString(16)] for [0 <= v < 16] *)
Definition hex_digit (v : N) : ascii :=
  match v with
  | 0 => "0" | 1 => "1" | 2 => "2" | 3 => "3" | 4 => "4" | 5 => "5"
  | 6 => "6" | 7 => "7" | 8 => "8" | 9 => "9" | 10 => "a" | 11 => "b"
  | 12 => "c" | 13 => "d" | 14 => "e" | _ => "f"
  end%N%char.

(** The replacer of [generateAnonymousId], applied to a matched [c]. *)
Definition uuid_char (c : ascii) : M ascii :=
  let! k := Math_random in
  let r := (k * 16 / 2 ^ 53)%N in                       (* (Math.random() * 16) | 0 *)
  let v := if Ascii.eqb c "x" then r else N.lor (N.land r 3) 8 in
  ret (hex_digit v).

(** [template.replace(/[xy]/g, replacer)] *)
Fixpoint replace_xy (template : string) : M string :=
  match template with
  | EmptyString => ret EmptyString
  | String c rest =>
      if Ascii.eqb c "x" || Ascii.eqb c "y" then
        let! d := uuid_char c in
        let! rest' := replace_xy rest in
        ret (String d rest')
      else
        let! rest' := replace_xy rest in
        ret (String c rest')
  end.

(** The number of random draws a template consumes. *)
Fixpoint count_xy (template : string) : nat :=
  match template with
  | EmptyString => 0
  | String c rest =>
      if Ascii.eqb c "x" || Ascii.eqb c "y" then S (count_xy rest) else count_xy rest
  end.

Definition generateAnonymousId : M string :=
  replace_xy "xxxxxxxx-xxxx-4xxx-yxxx-xxxxxxxxxxxx".

Section WithRuntime.
Context `{Runtime}.

Definition generateSessionId : M string :=
  let! t := Date_now in
  let! k := Math_random in
  ret (pretty t +:+ "-" +:+ substring 2 9 (Number_toString36 k)).

Definition saveSettings : M unit :=
  let! w := get_world in
  if negb (truthy (settings w)) then ret tt
  else
    try_catch
      (localStorage.setItem ANALYTICS_STORAGE_KEY (JSON_stringify (settings w)))
      (fun _ => ret tt).

(** The world [saveSettings] leaves behind: a write of the serialised
    record is issued when a record is held, and stored unless the storage
    refuses it. *)
Definition after_save (w : World) : World :=
  if truthy (settings w) then
    let value := JSON_stringify (settings w) in
    let w1 := emit (EvSetItem ANALYTICS_STORAGE_KEY value) w in
    if ls_set_throws w then w1
    else with_items (insert ANALYTICS_STORAGE_KEY value) w1
  else w.

(** [initialize], first block: load the stored record, or start from the
    default settings. *)
Definition load_settings : M unit :=
  let! stored := localStorage.getItem ANALYTICS_STORAGE_KEY in
  if stored_truthy stored then
    let! v := parse_json (default EmptyString stored) in
    modify (with_settings v)
  else
    modify (with_settings default_settings).

(** Second block: generate anonymous user ID if not exists. *)
Definition ensure_userId : M unit :=
  let! w := get_world in
  if truthy (settings w) then
    let! uid := read_prop (settings w) "userId" in
    when (negb (truthy uid))
      (let! id := generateAnonymousId in
       assign_settings "userId" (JStr id) ;>
       saveSettings)
  else ret tt.

(** Third block: generate session ID. *)
Definition refresh_sessionId : M unit :=
  let! w := get_world in
  when (truthy (settings w))
    (let! sid := generateSessionId in
     assign_settings "sessionId" (JStr sid)).

(** Fourth block: ensure the [hasSeenBanner] field exists. *)
Definition backfill_hasSeenBanner : M unit :=
  let! w := get_world in
  if truthy (settings w) then
    let! seen := read_prop (settings w) "hasSeenBanner" in
    when (is_undefined seen)
      (let! w := get_world in
       let! consented := read_prop (settings w) "hasConsented" in
       let! date := (if truthy consented then ret consented
                     else read_prop (settings w) "consentDate") in
       let! hasInteractedBefore :=
         (if truthy date then ret date
          else read_prop (settings w) "userId") in
       assign_settings "hasSeenBanner" (JBool (truthy hasInteractedBefore)) ;>
       saveSettings)
  else ret tt.

Definition initialize : M JsVal :=
  try_catch
    (load_settings ;>
     ensure_userId ;>
     refresh_sessionId ;>
     backfill_hasSeenBanner ;>
     let! w := get_world in
     ret (if truthy (settings w) then settings w else default_settings))
    (fun _ => ret default_settings).

(** Loading fails: the storage throws, or what is stored does not parse. *)
Definition load_fails (w : World) : Prop :=
  ls_get_throws w = true \/
  exists s, ls_get_throws w = false /\
            ls_items w !! ANALYTICS_STORAGE_KEY = Some s /\
            s <> EmptyString /\ JSON_parse s = None.

(** [if (!this.settings) await this.initialize();] *)
Definition ensure_initialized : M unit :=
  let! w := get_world in
  if negb (truthy (settings w)) then initialize ;> ret tt else ret tt.

(** [new Date().toISOString()] *)
Definition now_iso : M string :=
  let! t := Date_now in ret (Date_toISOString t).

Definition grantConsent : M unit :=
  ensure_initialized ;>
  assign_settings "enabled" (JBool true) ;>
  assign_settings "hasConsented" (JBool true) ;>
  assign_settings "hasSeenBanner" (JBool true) ;>
  (let! d := now_iso in assign_settings "consentDate" (JStr d)) ;>
  saveSettings.

Definition revokeConsent : M unit :=
  ensure_initialized ;>
  assign_settings "enabled" (JBool false) ;>
  assign_settings "hasSeenBanner" (JBool true) ;>
  (let! d := now_iso in assign_settings "consentDate" (JStr d)) ;>
  saveSettings.

Definition deleteAllData : M unit :=
  localStorage.removeItem ANALYTICS_STORAGE_KEY ;>
  (let! uid := generateAnonymousId in
   let! sid := generateSessionId in
   modify (with_settings
             (JObj [("enabled", JBool false); ("hasConsented", JBool false);
                    ("hasSeenBanner", JBool false);
                    ("userId", JStr uid); ("sessionId", JStr sid)]))) ;>
  saveSettings.

(** The record [grantConsent] leaves, from the properties [ps]. *)
Definition granted (ps : list (string * JsVal)) (t : Z) : list (string * JsVal) :=
  prop_store "consentDate" (JStr (Date_toISOString t))
    (prop_store "hasSeenBanner" (JBool true)
       (prop_store "hasConsented" (JBool true)
          (prop_store "enabled" (JBool true) ps))).

(** The record [revokeConsent] leaves, from the properties [ps]. *)
Definition revoked (ps : list (string * JsVal)) (t : Z) : list (string * JsVal) :=
  prop_store "consentDate" (JStr (Date_toISOString t))
    (prop_store "hasSeenBanner" (JBool true)
       (prop_store "enabled" (JBool false) ps)).

Definition getSettings : M JsVal :=
  let! w := get_world in ret (settings w).

(** [this.settings?.k || false] *)
Definition flag_accessor (k : string) : M bool :=
  let! w := get_world in ret (truthy (field (settings w) k)).

Definition hasConsented : M bool := flag_accessor "hasConsented".
Definition hasSeenBanner : M bool := flag_accessor "hasSeenBanner".
Definition isEnabled : M bool := flag_accessor "enabled".

(** [this.settings?.userId || this.generateAnonymousId()] *)
Definition getUserId : M JsVal :=
  let! w := get_world in
  let u := field (settings w) "userId" in
  if truthy u then ret u
  else let! id := generateAnonymousId in ret (JStr id).

Definition getSessionId : M JsVal :=
  let! w := get_world in
  let u := field (settings w) "sessionId" in
  if truthy u then ret u
  else let! id := generateSessionId in ret (JStr id).

End WithRuntime.

End ConsentManager.

(* ================================================================== *)
(** * WindowPersistenceService *)
(* ================================================================== *)

Module WindowPersistenceService.

Definition WINDOW_SIZE_KEY : string := "claudia_window_size".
Definition PERSISTENCE_ENABLED_KEY : string := "claudia_window_persistence_enabled".

(** [String(enabled)] *)
Definition String_of_bool (b : bool) : string := if b then "true" else "false".

Definition isEnabled : M bool :=
  let! enabled := localStorage.getItem PERSISTENCE_ENABLED_KEY in
  ret (match enabled with
       | None => true
       | Some s => String.eqb s "true"
       end).

Definition clearWindowSize : M unit :=
  localStorage.removeItem WINDOW_SIZE_KEY.

Definition setEnabled (enabled : bool) : M unit :=
  localStorage.setItem PERSISTENCE_ENABLED_KEY (String_of_bool enabled) ;>
  when (negb enabled) clearWindowSize.

(** The range the specification gives for a stored size: width in
    [400, 4000], height in [300, 3000]. *)
Definition in_bounds (width height : Z) : bool :=
  ((400 <=? width) && (width <=? 4000) && (300 <=? height) && (height <=? 3000))%Z.

(** The state one call leaves behind: a single timer [id], set at time [t]
    and due 500ms later, named by [saveTimeout]; the window has [size]. *)
Definition armed (id next : positive) (t : Z) (size : Z * Z) (w : World) : World :=
  with_saveTimeout (Some id)
    (with_timers [(id, (t + 500)%Z)] next (with_now t (with_win_size size w))).

Section WithRuntime.
Context `{Runtime}.

(** [ToNumber(v)]; [None] is NaN. *)
Definition ToNumber (v : JsVal) : option Z :=
  match v with
  | JUndefined => None
  | JNull => Some 0%Z
  | JBool b => Some (if b then 1 else 0)%Z
  | JNum n => Some n
  | JStr _ | JArr _ _ => ToNumber_other v
  | JObj _ => None
  end.

(** [v < c] and [v > c] against a numeric literal: false on NaN. *)
Definition js_lt (v : JsVal) (c : Z) : bool :=
  match ToNumber v with Some n => (n <? c)%Z | None => false end.
Definition js_gt (v : JsVal) (c : Z) : bool :=
  match ToNumber v with Some n => (c <? n)%Z | None => false end.

(** The [WindowSize] literal built by the deferred save. *)
Definition window_size_record (size : Z * Z) (timestamp : Z) : JsVal :=
  JObj [("width", JNum (fst size)); ("height", JNum (snd size));
        ("timestamp", JNum timestamp)].

(** The callback handed to [setTimeout] by [saveWindowSize]. *)
Definition deferred_save : M unit :=
  try_catch
    (getCurrentWindow ;>
     let! size := innerSize in
     let! t := Date_now in
     localStorage.setItem WINDOW_SIZE_KEY
       (JSON_stringify (window_size_record size t)))
    (fun _ => ret tt).

Definition saveWindowSize : M unit :=
  let! en := isEnabled in
  if negb en then ret tt
  else
    (let! w := get_world in
     match saveTimeout w with
     | Some id => clearTimeout id
     | None => ret tt
     end) ;>
    let! id := setTimeout 500 in
    modify (with_saveTimeout (Some id)).

Definition restoreWindowSize : M bool :=
  let! en := isEnabled in
  if negb en then ret false
  else
    try_catch
      (let! savedData := localStorage.getItem WINDOW_SIZE_KEY in
       if negb (stored_truthy savedData) then ret false
       else
         let! windowSize := parse_json (default EmptyString savedData) in
         let! width := read_prop windowSize "width" in
         let! height := read_prop windowSize "height" in
         if negb (truthy width) || negb (truthy height)
            || js_lt width 400 || js_lt height 300
            || js_gt width 4000 || js_gt height 3000
         then ret false
         else
           getCurrentWindow ;>
           setSize width height ;>
           ret true)
      (fun _ => ret false).

Definition getSavedWindowSize : M JsVal :=
  let! en := isEnabled in
  if negb en then ret JNull
  else
    try_catch
      (let! savedData := localStorage.getItem WINDOW_SIZE_KEY in
       if negb (stored_truthy savedData) then ret JNull
       else parse_json (default EmptyString savedData))
      (fun _ => ret JNull).

(** ** The event loop

    Every timer of the application is one set by [saveWindowSize], so
    firing a timer runs [deferred_save].  [advance ms] lets [ms]
    milliseconds pass: the pending timers that fall due fire in the
    order of their due times, each at its due time.  The awaited
    platform read inside the callback is taken to complete at once. *)

Fixpoint earliest (ts : list (positive * Z)) : option (positive * Z) :=
  match ts with
  | [] => None
  | t :: ts' =>
      match earliest ts' with
      | Some t' => if (snd t' <? snd t)%Z then Some t' else Some t
      | None => Some t
      end
  end.

Fixpoint fire_due (fuel : nat) (target : Z) (w : World) : World :=
  match fuel with
  | O => w
  | S fuel' =>
      match earliest (timers w) with
      | Some (id, due) =>
          if (due <=? target)%Z then
            let w1 := with_now (Z.max (now w) due)
                        (with_timers (drop_timer id (timers w)) (next_timer w) w) in
            fire_due fuel' target (snd (deferred_save w1))
          else w
      | None => w
      end
  end.

Definition advance (ms : N) (w : World) : World :=
  let target := (now w + Z.of_N ms)%Z in
  with_now target (fire_due (length (timers w)) target w).

(** The user (or the platform) gives the window a new size. *)
Definition resize (size : Z * Z) (w : World) : World := with_win_size size w.

(** ** Bursts of calls

    What happens around the calls to [saveWindowSize]: time passes and
    the window changes size.  (A resize notification delivered to the
    listener of [initializeResizeListener] is a [Resize] followed by a
    call.) *)
Inductive Env : Type :=
  | Wait (ms : N)
  | Resize (size : Z * Z).

Definition run_env (w : World) (e : Env) : World :=
  match e with
  | Wait ms => advance ms w
  | Resize size => resize size w
  end.

Definition run_envs (es : list Env) (w : World) : World :=
  fold_left run_env es w.

(** The time that passes during [es]. *)
Fixpoint elapsed (es : list Env) : N :=
  match es with
  | [] => 0
  | Wait ms :: es' => ms + elapsed es'
  | Resize _ :: es' => elapsed es'
  end%N.

(** The size of the window after [es], from [size]. *)
Definition size_after (es : list Env) (size : Z * Z) : Z * Z :=
  fold_left (fun sz e => match e with Wait _ => sz | Resize sz' => sz' end)
    es size.

(** A first call, then one more call after each of [gaps]. *)
Definition burst (gaps : list (list Env)) (w : World) : World :=
  fold_left (fun w es => snd (saveWindowSize (run_envs es w)))
    gaps (snd (saveWindowSize w)).

(** No timer is pending besides the one [saveTimeout] names. *)
Definition no_orphans (w : World) : Prop :=
  match saveTimeout w with
  | Some id => drop_timer id (timers w) = []
  | None => timers w = []
  end.

(** ** The resize listener

    The page around the service: the world, and the listeners registered
    for the [resize] event of the window.  Every listener the service
    registers is a [handleResize] closure of its own, created by one call
    of [initializeResizeListener]; it is named here by a number. *)
Record Page : Type := mkPage {
  page_world : World;
  listeners : list positive;
  next_listener : positive
}.

Definition with_world (w : World) (p : Page) : Page :=
  mkPage w (listeners p) (next_listener p).

(** What [initializeResizeListener] returns: [() => {}], or the closure
    that removes the listener it has registered. *)
Inductive Cleanup : Type :=
  | NoCleanup
  | RemoveListener (id : positive).

(** [handleResize]: the promise of [saveWindowSize] is dropped, so a
    failure inside the call does not reach the event dispatcher. *)
Definition handleResize (w : World) : World := snd (saveWindowSize w).

Definition initializeResizeListener (p : Page) : Outcome Cleanup * Page :=
  match isEnabled (page_world p) with
  | (Throw e, w) => (Throw e, with_world w p)
  | (Ret false, w) => (Ret NoCleanup, with_world w p)
  | (Ret true, w) =>
      let id := next_listener p in
      (Ret (RemoveListener id), mkPage w (listeners p ++ [id]) (Pos.succ id))
  end.

(** A call of the cleanup function. *)
Definition run_cleanup (c : Cleanup) (p : Page) : Page :=
  match c with
  | NoCleanup => p
  | RemoveListener id =>
      let w := page_world p in
      mkPage
        match saveTimeout w with
        | Some t => with_saveTimeout None (snd (clearTimeout t w))
        | None => w
        end
        (List.filter (fun l => negb (Pos.eqb l id)) (listeners p))
        (next_listener p)
  end.

(** The window has been given the size [size] and the [resize] event is
    dispatched: the registered listeners run, in the order of their
    registration. *)
Definition dispatch_resize (size : Z * Z) (p : Page) : Page :=
  with_world
    (fold_left (fun w _ => handleResize w) (listeners p)
       (resize size (page_world p)))
    p.

(** ** Histories

    What the clients of the service do to a page, and what happens to it
    meanwhile.  The notification that follows a successful
    [restoreWindowSize] is a [ResizeEvent] of its own. *)
Inductive Action : Type :=
  | CallSetEnabled (enabled : bool)
  | CallSaveWindowSize
  | CallRestoreWindowSize
  | CallGetSavedWindowSize
  | CallClearWindowSize
  | CallInitializeResizeListener
  | CallCleanup (c : Cleanup)
  | ResizeEvent (size : Z * Z)
  | Elapse (ms : N).

(** A call of a method of the service, its result dropped. *)
Definition call {A} (m : M A) (p : Page) : Page :=
  with_world (snd (m (page_world p))) p.

Definition act (p : Page) (a : Action) : Page :=
  match a with
  | CallSetEnabled enabled => call (setEnabled enabled) p
  | CallSaveWindowSize => call saveWindowSize p
  | CallRestoreWindowSize => call restoreWindowSize p
  | CallGetSavedWindowSize => call getSavedWindowSize p
  | CallClearWindowSize => call clearWindowSize p
  | CallInitializeResizeListener => snd (initializeResizeListener p)
  | CallCleanup c => run_cleanup c p
  | ResizeEvent size => dispatch_resize size p
  | Elapse ms => with_world (advance ms (page_world p)) p
  end.

Definition history (actions : list Action) (p : Page) : Page :=
  fold_left act actions p.


(** The writes of the window size among [events]. *)
Definition size_writes (events : list Event) : list string :=
  omap (fun e => match e with
                 | EvSetItem k v => if String.eqb k WINDOW_SIZE_KEY then Some v else None
                 | _ => None
                 end) events.

End WithRuntime.

End WindowPersistenceService.

(* ================================================================== *)
(** * A concrete runtime

    An executable instance of [Runtime], used to run the services on
    concrete inputs.  It covers the JSON the services exchange: objects,
    arrays, strings without escapes other than the quote and the
    backslash, integers, booleans and [null]. *)
(* ================================================================== *)

Module Sample.

Definition dquote : ascii := ascii_of_nat 34.
Definition backslash : ascii := ascii_of_nat 92.

(** JSON text written with single quotes for readability. *)
Fixpoint json (s : string) : string :=
  match s with
  | EmptyString => EmptyString
  | String c r => String (if Ascii.eqb c "'" then dquote else c) (json r)
  end.

(** ** Serialisation *)

Fixpoint escape (s : string) : string :=
  match s with
  | EmptyString => EmptyString
  | String c r =>
      if Ascii.eqb c dquote || Ascii.eqb c backslash
      then String backslash (String c (escape r))
      else String c (escape r)
  end.

Definition quote (s : string) : string :=
  String dquote (escape s +:+ String dquote EmptyString).

Fixpoint join (sep : string) (l : list string) : string :=
  match l with
  | [] => EmptyString
  | [x] => x
  | x :: r => x +:+ sep +:+ join sep r
  end.

Fixpoint stringify (v : JsVal) : string :=
  match v with
  | JUndefined | JNull => "null"
  | JBool b => if b then "true" else "false"
  | JNum n => pretty n
  | JStr s => quote s
  | JArr es _ => "[" +:+ join "," (List.map stringify es) +:+ "]"
  | JObj ps =>
      (* properties holding [undefined] are left out *)
      "{" +:+ join ","
                ((fix members (ps : list (string * JsVal)) : list string :=
                    match ps with
                    | [] => []
                    | (k, x) :: r =>
                        if is_undefined x then members r
                        else (quote k +:+ ":" +:+ stringify x) :: members r
                    end) ps)
          +:+ "}"
  end.

(** ** Parsing *)

Definition is_ws (c : ascii) : bool :=
  Ascii.eqb c " " || Ascii.eqb c (ascii_of_nat 10)
  || Ascii.eqb c (ascii_of_nat 13) || Ascii.eqb c (ascii_of_nat 9).

Fixpoint skip_ws (s : string) : string :=
  match s with
  | String c r => if is_ws c then skip_ws r else s
  | EmptyString => s
  end.

Definition digit_of (c : ascii) : option Z :=
  let n := nat_of_ascii c in
  if (48 <=? n)%nat && (n <=? 57)%nat then Some (Z.of_nat (n - 48)) else None.

Fixpoint digits (acc : Z) (s : string) : Z * string :=
  match s with
  | String c r =>
      match digit_of c with
      | Some d => digits (10 * acc + d)%Z r
      | None => (acc, s)
      end
  | EmptyString => (acc, s)
  end.

Definition number (s : string) : option (Z * string) :=
  match s with
  | String c r =>
      if Ascii.eqb c "-" then
        match r with
        | String d _ =>
            match digit_of d with
            | Some _ => let '(n, rest) := digits 0 r in Some ((- n)%Z, rest)
            | None => None
            end
        | EmptyString => None
        end
      else
        match digit_of c with
        | Some _ => Some (digits 0 s)
        | None => None
        end
  | EmptyString => None
  end.

(** The characters up to the closing quote. *)
Fixpoint string_body (s : string) : option (string * string) :=
  match s with
  | EmptyString => None
  | String c r =>
      if Ascii.eqb c dquote then Some (EmptyString, r)
      else if Ascii.eqb c backslash then
        match r with
        | String e r' =>
            if Ascii.eqb e dquote || Ascii.eqb e backslash then
              match string_body r' with
              | Some (body, rest) => Some (String e body, rest)
              | None => None
              end
            else None
        | EmptyString => None
        end
      else
        match string_body r with
        | Some (body, rest) => Some (String c body, rest)
        | None => None
        end
  end.

Definition keyword (k : string) (v : JsVal) (s : string) : option (JsVal * string) :=
  if String.prefix k s
  then Some (v, substring (String.length k) (String.length s - String.length k) s)
  else None.

Fixpoint value (fuel : nat) (s : string) : option (JsVal * string) :=
  match fuel with
  | O => None
  | S fuel' =>
      match skip_ws s with
      | String c r =>
          if Ascii.eqb c "{" then
            match skip_ws r with
            | String d r' =>
                if Ascii.eqb d "}" then Some (JObj [], r')
                else members fuel' [] (skip_ws r)
            | EmptyString => None
            end
          else if Ascii.eqb c "[" then
            match skip_ws r with
            | String d r' =>
                if Ascii.eqb d "]" then Some (JArr [] [], r')
                else elements fuel' [] (skip_ws r)
            | EmptyString => None
            end
          else if Ascii.eqb c dquote then
            match string_body r with
            | Some (body, rest) => Some (JStr body, rest)
            | None => None
            end
          else if Ascii.eqb c "t" then keyword "true" (JBool true) (String c r)
          else if Ascii.eqb c "f" then keyword "false" (JBool false) (String c r)
          else if Ascii.eqb c "n" then keyword "null" JNull (String c r)
          else
            match number (String c r) with
            | Some (n, rest) => Some (JNum n, rest)
            | None => None
            end
      | EmptyString => None
      end
  end
with members (fuel : nat) (acc : list (string * JsVal)) (s : string)
  : option (JsVal * string) :=
  match fuel with
  | O => None
  | S fuel' =>
      match skip_ws s with
      | String c r =>
          if Ascii.eqb c dquote then
            match string_body r with
            | Some (key, rest) =>
                match skip_ws rest with
                | String colon rest' =>
                    if Ascii.eqb colon ":" then
                      match value fuel' rest' with
                      | Some (v, rest'') =>
                          let acc' := prop_store key v acc in
                          match skip_ws rest'' with
                          | String e tail =>
                              if Ascii.eqb e "," then members fuel' acc' tail
                              else if Ascii.eqb e "}" then Some (JObj acc', tail)
                              else None
                          | EmptyString => None
                          end
                      | None => None
                      end
                    else None
                | EmptyString => None
                end
            | None => None
            end
          else None
      | EmptyString => None
      end
  end
with elements (fuel : nat) (acc : list JsVal) (s : string)
  : option (JsVal * string) :=
  match fuel with
  | O => None
  | S fuel' =>
      match value fuel' s with
      | Some (v, rest) =>
          match skip_ws rest with
          | String e tail =>
              if Ascii.eqb e "," then elements fuel' (acc ++ [v]) tail
              else if Ascii.eqb e "]" then Some (JArr (acc ++ [v]) [], tail)
              else None
          | EmptyString => None
          end
      | None => None
      end
  end.

Definition parse (s : string) : option JsVal :=
  match value (S (String.length s)) s with
  | Some (v, rest) =>
      match skip_ws rest with
      | EmptyString => Some v
      | _ => None
      end
  | None => None
  end.

(** ** Dates, radix 36, coercions *)

Fixpoint zeros (n : nat) : string :=
  match n with
  | O => EmptyString
  | S n' => String "0" (zeros n')
  end.

Definition pad_left (width : nat) (s : string) : string :=
  zeros (width - String.length s) +:+ s.

Definition pad (width : nat) (n : Z) : string := pad_left width (pretty n).

(** Proleptic Gregorian date of a day count from 1970-01-01. *)
Definition civil_from_days (days : Z) : Z * Z * Z :=
  let z := (days + 719468)%Z in
  let era := (z / 146097)%Z in
  let doe := (z - era * 146097)%Z in
  let yoe := ((doe - doe / 1460 + doe / 36524 - doe / 146096) / 365)%Z in
  let doy := (doe - (365 * yoe + yoe / 4 - yoe / 100))%Z in
  let mp := ((5 * doy + 2) / 153)%Z in
  let d := (doy - (153 * mp + 2) / 5 + 1)%Z in
  let m := (if mp <? 10 then mp + 3 else mp - 9)%Z in
  let y := (yoe + era * 400 + (if m <=? 2 then 1 else 0))%Z in
  (y, m, d).

Definition toISOString (t : Z) : string :=
  let '(y, m, d) := civil_from_days (t / 86400000) in
  let ms := (t mod 86400000)%Z in
  pad 4 y +:+ "-" +:+ pad 2 m +:+ "-" +:+ pad 2 d +:+ "T"
  +:+ pad 2 (ms / 3600000) +:+ ":" +:+ pad 2 (ms / 60000 mod 60) +:+ ":"
  +:+ pad 2 (ms / 1000 mod 60) +:+ "." +:+ pad 3 (ms mod 1000) +:+ "Z".

Definition digit36 (d : N) : ascii :=
  ascii_of_N (if (d <? 10)%N then 48 + d else 87 + d)%N.

Fixpoint fraction36 (fuel : nat) (k : N) : string :=
  match fuel with
  | O => EmptyString
  | S fuel' =>
      if (k =? 0)%N then EmptyString
      else String (digit36 (k * 36 / 2 ^ 53)) (fraction36 fuel' (k * 36 mod 2 ^ 53))
  end.

Definition toString36 (k : N) : string :=
  if (k =? 0)%N then "0" else "0." +:+ fraction36 27 k.

Definition toNumber (v : JsVal) : option Z :=
  match v with
  | JStr s =>
      match skip_ws s with
      | EmptyString => Some 0%Z
      | t => match number t with
             | Some (n, rest) =>
                 match skip_ws rest with EmptyString => Some n | _ => None end
             | None => None
             end
      end
  | JArr [] _ => Some 0%Z
  | _ => None
  end.

Definition runtime : Runtime :=
  {| JSON_parse := parse;
     JSON_stringify := stringify;
     Date_toISOString := toISOString;
     Number_toString36 := toString36;
     ToNumber_other := toNumber |}.

(** A healthy world: empty storage, an 800x600 window, the clock at
    2023-11-14T22:13:20Z, a random source that keeps drawing [draw]. *)
Definition world (draw : N) : World :=
  {| ls_items := ∅;
     ls_get_throws := false; ls_set_throws := false; ls_remove_throws := false;
     tauri_missing := false; ipc_fails := false;
     win_size := (800, 600)%Z;
     now := 1700000000000%Z;
     rng := fun _ => draw; rng_pos := 0;
     timers := []; next_timer := 1%positive;
     settings := JNull;
     saveTimeout := None;
     trace := [] |}.

(** The same world with [value] stored under [key]. *)
Definition stored (key value : string) (w : World) : World :=
  with_items (insert key value) w.

End Sample.

(* ================================================================== *)
(** * Scenarios

    Concrete worlds and inputs on which the services are run below. *)
(* ================================================================== *)

Module Scenarios.

Import ConsentManager WindowPersistenceService.

(** A stored record with no [hasSeenBanner], no [userId], no
    [consentDate], and [hasConsented] false. *)
Definition legacy_record : string :=
  Sample.json "{'enabled':false,'hasConsented':false}".

(** A world whose stored settings are not JSON; no record is held yet. *)
Definition corrupt_world : World :=
  Sample.stored ANALYTICS_STORAGE_KEY "{bad" (Sample.world 0).

(** A world that holds a record: the one [initialize] builds on first
    run, from a random source that keeps drawing zero. *)
Definition initialized_world : World := snd (@initialize Sample.runtime (Sample.world 0)).

(** The two stored records of the specification's example. *)
Definition small_record : string :=
  Sample.json "{'width':200,'height':200,'timestamp':1699999000000}".
Definition hd_record : string :=
  Sample.json "{'width':1920,'height':1080,'timestamp':1699999000000}".

Definition small_world : World :=
  Sample.stored WINDOW_SIZE_KEY small_record (Sample.world 0).
Definition hd_world : World :=
  Sample.stored WINDOW_SIZE_KEY hd_record (Sample.world 0).

(** Three calls, 100ms and 499ms apart, the window resized in between and
    once more, to 1024x768, after the last call. *)
Definition three_calls : list (list Env) :=
  [[Wait 100; Resize (900, 700)%Z]; [Wait 499]].
Definition after_last_call : list Env :=
  [Wait 200; Resize (1024, 768)%Z].

(** A stored record that lacks nothing: a returning user who has
    consented. *)
Definition complete_record : string :=
  Sample.json
    "{'enabled':true,'hasConsented':true,'hasSeenBanner':true,'userId':'u-1'}".
Definition returning_world : World :=
  Sample.stored ANALYTICS_STORAGE_KEY complete_record (Sample.world 0).

(** A storage that is full, or read-only: every write is refused. *)
Definition refuse_writes (w : World) : World :=
  mkWorld (ls_items w) (ls_get_throws w) true (ls_remove_throws w)
    (tauri_missing w) (ipc_fails w) (win_size w) (now w) (rng w) (rng_pos w)
    (timers w) (next_timer w) (settings w) (saveTimeout w) (trace w).

(** A storage that cannot be read at all. *)
Definition refuse_reads (w : World) : World :=
  mkWorld (ls_items w) true (ls_set_throws w) (ls_remove_throws w)
    (tauri_missing w) (ipc_fails w) (win_size w) (now w) (rng w) (rng_pos w)
    (timers w) (next_timer w) (settings w) (saveTimeout w) (trace w).

(** A platform window that rejects every call. *)
Definition failing_platform (w : World) : World :=
  mkWorld (ls_items w) (ls_get_throws w) (ls_set_throws w) (ls_remove_throws w)
    (tauri_missing w) true (win_size w) (now w) (rng w) (rng_pos w)
    (timers w) (next_timer w) (settings w) (saveTimeout w) (trace w).

(** A page with no listener yet. *)
Definition fresh_page (w : World) : Page := mkPage w [] 1%positive.

(** The fields of [complete_record]. *)
Definition complete_fields : list (string * JsVal) :=
  [("enabled", JBool true); ("hasConsented", JBool true);
   ("hasSeenBanner", JBool true); ("userId", JStr "u-1")].

(** The identifier generated from a random source that keeps drawing
    zero, and the fields of the record [initialized_world] holds. *)
Definition zero_uuid : string := "00000000-0000-4000-8000-000000000000".
Definition first_run_fields : list (string * JsVal) :=
  [("enabled", JBool false); ("hasConsented", JBool false);
   ("hasSeenBanner", JBool false); ("userId", JStr zero_uuid);
   ("sessionId", JStr "1700000000000-")].

(** A stored size that is not JSON. *)
Definition corrupt_size_world : World :=
  Sample.stored WINDOW_SIZE_KEY "{bad" (Sample.world 0).

(** Persistence switched off, a size still stored. *)
Definition disabled_world : World :=
  Sample.stored PERSISTENCE_ENABLED_KEY "false" hd_world.


(** A session of a page: calls, resize events and waits in some order. *)
Definition busy_session : list Action :=
  [CallInitializeResizeListener; ResizeEvent (900, 700)%Z; CallSaveWindowSize;
   Elapse 100; CallInitializeResizeListener; ResizeEvent (1024, 768)%Z;
   CallSetEnabled false; Elapse 450; CallRestoreWindowSize;
   CallCleanup (RemoveListener 1); CallSetEnabled true; ResizeEvent (640, 480)%Z;
   CallGetSavedWindowSize; CallClearWindowSize; Elapse 1000].


End Scenarios.

(* ================================================================== *)
(** * The shape of a version-4 UUID *)
(* ================================================================== *)

Module Uuid.

(** One of [0-9a-f]. *)
Definition is_hex (c : ascii) : bool :=
  let n := nat_of_ascii c in
  ((48 <=? n) && (n <=? 57) || (97 <=? n) && (n <=? 102))%nat.

(** One of [8], [9], [a], [b]: the variant digit of a version-4 UUID. *)
Definition is_variant (c : ascii) : bool :=
  Ascii.eqb c "8" || Ascii.eqb c "9" || Ascii.eqb c "a" || Ascii.eqb c "b".

(** [id] follows [template]: a hex digit for each [x], a variant digit
    for each [y], the template's own character elsewhere. *)
Fixpoint shaped (template id : string) : bool :=
  match template, id with
  | EmptyString, EmptyString => true
  | String c t, String d i =>
      (if Ascii.eqb c "x" then is_hex d
       else if Ascii.eqb c "y" then is_variant d
       else Ascii.eqb d c)
      && shaped t i
  | _, _ => false
  end.

End Uuid.

(* ================================================================== *)
(** * Facts about values and the world *)
(* ================================================================== *)

Lemma prop_lookup_store_eq k v ps : prop_lookup k (prop_store k v ps) = Some v.
Proof.
  induction ps as [|[k' v'] ps IH]; simpl.
  - by rewrite String.eqb_refl.
  - destruct (String.eqb k k') eqn:E; simpl.
    + by rewrite String.eqb_refl.
    + by rewrite E.
Qed.

Lemma prop_lookup_store_ne k k' v ps :
  k <> k' -> prop_lookup k (prop_store k' v ps) = prop_lookup k ps.
Proof.
  intros Hne. induction ps as [|[k0 v0] ps IH]; simpl.
  - destruct (String.eqb k k') eqn:E; [|done].
    apply String.eqb_eq in E. done.
  - destruct (String.eqb k' k0) eqn:E'; simpl.
    + apply String.eqb_eq in E' as <-.
      destruct (String.eqb k k') eqn:E; [|done].
      apply String.eqb_eq in E. done.
    + by rewrite IH.
Qed.

Lemma truthy_JStr s : s <> EmptyString -> truthy (JStr s) = true.
Proof.
  intros Hs. simpl. destruct (String.eqb s EmptyString) eqn:E; [|done].
  apply String.eqb_eq in E. done.
Qed.

Lemma world_eta w :
  mkWorld (ls_items w) (ls_get_throws w) (ls_set_throws w) (ls_remove_throws w)
    (tauri_missing w) (ipc_fails w) (win_size w) (now w) (rng w) (rng_pos w)
    (timers w) (next_timer w) (settings w) (saveTimeout w) (trace w) = w.
Proof. by destruct w. Qed.

Lemma with_rng_pos_same w : with_rng_pos (rng_pos w) w = w.
Proof. apply world_eta. Qed.

(* ================================================================== *)
(** * Identifier generation *)
(* ================================================================== *)

Section Identifiers.
Import ConsentManager.

Lemma replace_xy_spec template w :
  exists s, replace_xy template w
            = (Ret s, with_rng_pos (rng_pos w + count_xy template) w)
            /\ String.length s = String.length template.
Proof.
  revert w. induction template as [|c rest IH]; intros w; simpl.
  - exists EmptyString. unfold ret. by rewrite Nat.add_0_r, with_rng_pos_same.
  - destruct (Ascii.eqb c "x" || Ascii.eqb c "y").
    + unfold bind at 1. unfold uuid_char, bind at 1, Math_random, ret at 1.
      unfold bind at 1.
      destruct (IH (with_rng_pos (S (rng_pos w)) w)) as (s & -> & Hlen).
      eexists. split.
      * unfold ret, with_rng_pos; simpl. do 2 f_equal. lia.
      * simpl. by rewrite Hlen.
    + unfold bind at 1. destruct (IH w) as (s & -> & Hlen).
      eexists. split; [done|]. simpl. by rewrite Hlen.
Qed.

(** [generateAnonymousId] returns a 36-character identifier and moves
    the random source by 31 draws; nothing else changes. *)
Lemma generateAnonymousId_spec w :
  exists id, generateAnonymousId w = (Ret id, with_rng_pos (rng_pos w + 31) w)
             /\ String.length id = 36.
Proof. apply (replace_xy_spec "xxxxxxxx-xxxx-4xxx-yxxx-xxxxxxxxxxxx"). Qed.

Lemma generateAnonymousId_truthy w id w' :
  generateAnonymousId w = (Ret id, w') -> truthy (JStr id) = true.
Proof.
  destruct (generateAnonymousId_spec w) as (id' & -> & Hlen).
  intros [= <- _]. apply truthy_JStr. intros ->. done.
Qed.

End Identifiers.

(* ================================================================== *)
(** * Facts about computations *)
(* ================================================================== *)

Lemma bind_ret {A B} (m : M A) (k : A -> M B) w a w' :
  m w = (Ret a, w') -> bind m k w = k a w'.
Proof. unfold bind. by intros ->. Qed.

Lemma bind_throw {A B} (m : M A) (k : A -> M B) w e w' :
  m w = (Throw e, w') -> bind m k w = (Throw e, w').
Proof. unfold bind. by intros ->. Qed.

Lemma try_catch_returns {A} (m : M A) (h : JsError -> M A) w :
  (forall e w', returns (h e w') = true) -> returns (try_catch m h w) = true.
Proof.
  intros Hh. unfold try_catch. destruct (m w) as [[a|e] w']; [done|apply Hh].
Qed.

(* ================================================================== *)
(** * ConsentManager: the consent record *)
(* ================================================================== *)

(** Symbolic execution of a computation: unfold the monad and the record
    updates, nothing else. *)
Ltac run :=
  cbn [bind ret throw when get_world modify try_catch read_prop parse_json
       assign_settings get_prop set_prop field default from_option id truthy
       is_undefined negb
       fst snd
       with_items with_win_size with_now with_rng_pos with_timers with_settings
       with_saveTimeout emit
       ls_items ls_get_throws ls_set_throws ls_remove_throws tauri_missing
       ipc_fails win_size now rng rng_pos timers next_timer settings saveTimeout
       trace].
Tactic Notation "run" "in" hyp(H) :=
  cbn [bind ret throw when get_world modify try_catch read_prop parse_json
       assign_settings get_prop set_prop field default from_option id truthy
       is_undefined negb
       fst snd
       with_items with_win_size with_now with_rng_pos with_timers with_settings
       with_saveTimeout emit
       ls_items ls_get_throws ls_set_throws ls_remove_throws tauri_missing
       ipc_fails win_size now rng rng_pos timers next_timer settings saveTimeout
       trace] in H.

(** Name the fields of a world, and substitute what is known of them. *)
Ltac open_world w :=
  destruct w as [it gt st rt tm ip ws nw rg rp ts nt sg so tr];
  cbn [ls_items ls_get_throws ls_set_throws ls_remove_throws
                   tauri_missing ipc_fails win_size now rng rng_pos timers
                   next_timer settings saveTimeout trace] in *; subst.

Section SaveFacts.
Context `{Runtime}.
Import ConsentManager.

Lemma saveSettings_eq w : saveSettings w = (Ret tt, after_save w).
Proof.
  unfold saveSettings, after_save, bind, get_world, try_catch, localStorage.setItem, ret.
  destruct (truthy (settings w)); simpl; [|done].
  by destruct (ls_set_throws w).
Qed.

Lemma settings_after_save w : settings (after_save w) = settings w.
Proof.
  unfold after_save. destruct (truthy (settings w)); [|done].
  by destruct (ls_set_throws w).
Qed.

Lemma generateSessionId_eq w :
  exists sid, generateSessionId w = (Ret sid, with_rng_pos (S (rng_pos w)) w).
Proof. eexists. reflexivity. Qed.

End SaveFacts.

Ltac save_step :=
  match goal with
  | |- context [ConsentManager.saveSettings ?W] =>
      rewrite (saveSettings_eq W)
  end.

Section ConsentFacts.
Context `{Runtime}.
Import ConsentManager.

(** ** [initialize], block by block, on a record *)

Lemma load_settings_stored w s v :
  ls_get_throws w = false ->
  ls_items w !! ANALYTICS_STORAGE_KEY = Some s ->
  s <> EmptyString ->
  JSON_parse s = Some v ->
  load_settings w = (Ret tt, with_settings v w).
Proof.
  intros Hget Hitem Hs Hparse. unfold load_settings.
  erewrite bind_ret by (unfold localStorage.getItem; by rewrite Hget, Hitem).
  simpl. destruct (String.eqb s EmptyString) eqn:E.
  { apply String.eqb_eq in E. done. }
  simpl. unfold parse_json. rewrite Hparse. done.
Qed.

Lemma ensure_userId_record w ps :
  settings w = JObj ps ->
  exists w' ps',
    ensure_userId w = (Ret tt, w') /\ settings w' = JObj ps' /\
    truthy (field (JObj ps') "userId") = true /\
    (forall k, k <> "userId" -> prop_lookup k ps' = prop_lookup k ps).
Proof.
  intros Hs. open_world w. unfold ensure_userId, field. run.
  destruct (truthy (default JUndefined (prop_lookup "userId" ps))) eqn:Hu; run.
  - by eexists _, ps.
  - edestruct generateAnonymousId_spec as (id & Hid & Hlen).
    rewrite (bind_ret _ _ _ _ _ Hid). run.
    eexists _, _. save_step. split; [done|].
    rewrite settings_after_save. run.
    split; [done|]. split.
    + rewrite prop_lookup_store_eq. eapply generateAnonymousId_truthy, Hid.
    + intros k Hk. by apply prop_lookup_store_ne.
Qed.

Lemma refresh_sessionId_record w ps :
  settings w = JObj ps ->
  exists w' sid,
    refresh_sessionId w = (Ret tt, w') /\
    settings w' = JObj (prop_store "sessionId" (JStr sid) ps).
Proof.
  intros Hs. open_world w. unfold refresh_sessionId. run.
  edestruct generateSessionId_eq as [sid Hsid].
  rewrite (bind_ret _ _ _ _ _ Hsid). run. by eexists _, _.
Qed.

Lemma backfill_hasSeenBanner_record w ps :
  settings w = JObj ps ->
  prop_lookup "hasSeenBanner" ps = None ->
  truthy (field (JObj ps) "userId") = true ->
  exists w',
    backfill_hasSeenBanner w = (Ret tt, w') /\
    settings w' = JObj (prop_store "hasSeenBanner" (JBool true) ps).
Proof.
  intros Hs Hseen Huid. open_world w. unfold field in Huid. run in Huid.
  unfold backfill_hasSeenBanner. run. rewrite Hseen. run.
  destruct (truthy (default JUndefined (prop_lookup "hasConsented" ps))) eqn:Ec;
    [|destruct (truthy (default JUndefined (prop_lookup "consentDate" ps))) eqn:Ed];
    run; eexists;
    repeat (first [rewrite Ec | rewrite Ed | rewrite Huid]; run);
    save_step; by rewrite settings_after_save.
Qed.

Lemma initialize_never_raises w : returns (initialize w) = true.
Proof. by apply try_catch_returns. Qed.

(** ** Consent decisions and erasure *)

(** When loading fails, the first block throws and leaves the world as
    it was. *)
Lemma load_settings_throws w :
  load_fails w -> exists e, load_settings w = (Throw e, w).
Proof.
  intros [Hthrow | (s & Hget & Hitem & Hs & Hparse)]; unfold load_settings.
  - exists StorageError. apply bind_throw.
    unfold localStorage.getItem. by rewrite Hthrow.
  - exists SyntaxError.
    erewrite bind_ret by (unfold localStorage.getItem; by rewrite Hget, Hitem).
    cbn [stored_truthy default from_option id].
    destruct (String.eqb s EmptyString) eqn:E.
    { apply String.eqb_eq in E. done. }
    cbn [negb]. apply bind_throw. unfold parse_json. by rewrite Hparse.
Qed.

Lemma ensure_initialized_held w :
  truthy (settings w) = true -> ensure_initialized w = (Ret tt, w).
Proof. intros Hs. unfold ensure_initialized. run. by rewrite Hs. Qed.

(** When loading fails and no record is held, none is held afterwards. *)
Lemma ensure_initialized_load_fails w :
  settings w = JNull -> load_fails w -> ensure_initialized w = (Ret tt, w).
Proof.
  intros Hs [e He]%load_settings_throws. unfold ensure_initialized. run.
  rewrite Hs. run. rewrite (bind_ret _ _ w default_settings w); [done|].
  unfold initialize, try_catch. by rewrite (bind_throw _ _ _ _ _ He).
Qed.

Lemma grantConsent_on_record w w1 ps :
  ensure_initialized w = (Ret tt, w1) ->
  settings w1 = JObj ps ->
  grantConsent w
  = (Ret tt, after_save (with_settings (JObj (granted ps (now w1))) w1)).
Proof.
  intros Hinit Hs. unfold grantConsent.
  rewrite (bind_ret _ _ _ _ _ Hinit). clear Hinit.
  open_world w1. unfold now_iso, Date_now. run. by save_step.
Qed.

Lemma revokeConsent_on_record w w1 ps :
  ensure_initialized w = (Ret tt, w1) ->
  settings w1 = JObj ps ->
  revokeConsent w
  = (Ret tt, after_save (with_settings (JObj (revoked ps (now w1))) w1)).
Proof.
  intros Hinit Hs. unfold revokeConsent.
  rewrite (bind_ret _ _ _ _ _ Hinit). clear Hinit.
  open_world w1. unfold now_iso, Date_now. run. by save_step.
Qed.

Lemma granted_fields ps t :
  field (JObj (granted ps t)) "enabled" = JBool true /\
  field (JObj (granted ps t)) "hasConsented" = JBool true /\
  field (JObj (granted ps t)) "hasSeenBanner" = JBool true /\
  field (JObj (granted ps t)) "consentDate" = JStr (Date_toISOString t).
Proof.
  unfold field, granted. run.
  repeat (rewrite ?prop_lookup_store_eq; rewrite ?prop_lookup_store_ne by done).
  done.
Qed.

Lemma revoked_fields ps t :
  field (JObj (revoked ps t)) "enabled" = JBool false /\
  field (JObj (revoked ps t)) "hasSeenBanner" = JBool true /\
  field (JObj (revoked ps t)) "consentDate" = JStr (Date_toISOString t) /\
  field (JObj (revoked ps t)) "hasConsented" = field (JObj ps) "hasConsented".
Proof.
  unfold field, revoked. run.
  repeat (rewrite ?prop_lookup_store_eq; rewrite ?prop_lookup_store_ne by done).
  done.
Qed.

(** The identifier drawn depends on the random source alone. *)
Lemma replace_xy_rng template w1 w2 :
  rng w1 = rng w2 -> rng_pos w1 = rng_pos w2 ->
  fst (replace_xy template w1) = fst (replace_xy template w2).
Proof.
  revert w1 w2. induction template as [|c rest IH]; intros w1 w2 Hr Hp; [done|].
  cbn [replace_xy]. destruct (Ascii.eqb c "x" || Ascii.eqb c "y").
  - unfold uuid_char, Math_random. run. rewrite Hr, Hp.
    specialize (IH (with_rng_pos (S (rng_pos w2)) w1)
                   (with_rng_pos (S (rng_pos w2)) w2) Hr eq_refl).
    destruct (replace_xy_spec rest (with_rng_pos (S (rng_pos w2)) w1)) as (s1 & E1 & _).
    destruct (replace_xy_spec rest (with_rng_pos (S (rng_pos w2)) w2)) as (s2 & E2 & _).
    rewrite E1, E2 in IH. injection IH as ->.
    by rewrite (bind_ret _ _ _ _ _ E1), (bind_ret _ _ _ _ _ E2).
  - specialize (IH w1 w2 Hr Hp).
    destruct (replace_xy_spec rest w1) as (s1 & E1 & _).
    destruct (replace_xy_spec rest w2) as (s2 & E2 & _).
    rewrite E1, E2 in IH. injection IH as ->.
    by rewrite (bind_ret _ _ _ _ _ E1), (bind_ret _ _ _ _ _ E2).
Qed.

Lemma generateAnonymousId_rng w1 w2 :
  rng w1 = rng w2 -> rng_pos w1 = rng_pos w2 ->
  fst (generateAnonymousId w1) = fst (generateAnonymousId w2).
Proof. apply replace_xy_rng. Qed.

Lemma trace_after_save w :
  truthy (settings w) = true ->
  trace (after_save w)
  = trace w ++ [EvSetItem ANALYTICS_STORAGE_KEY (JSON_stringify (settings w))].
Proof.
  intros Hs. unfold after_save. rewrite Hs. by destruct (ls_set_throws w).
Qed.

Lemma stored_after_save w :
  truthy (settings w) = true -> ls_set_throws w = false ->
  ls_items (after_save w) !! ANALYTICS_STORAGE_KEY
  = Some (JSON_stringify (settings w)).
Proof.
  intros Hs Hset. unfold after_save. rewrite Hs, Hset. run.
  apply lookup_insert_eq.
Qed.

Lemma backfill_hasSeenBanner_present w ps v :
  settings w = JObj ps ->
  prop_lookup "hasSeenBanner" ps = Some v -> is_undefined v = false ->
  backfill_hasSeenBanner w = (Ret tt, w).
Proof.
  intros Hs Hseen Hv. unfold backfill_hasSeenBanner. run. rewrite Hs. run.
  rewrite Hseen. run. by rewrite Hv.
Qed.

(** First run: nothing is stored, the storage answers.  [initialize]
    leaves a record in [settings]. *)
Lemma initialize_first_run w :
  ls_get_throws w = false ->
  ls_items w !! ANALYTICS_STORAGE_KEY = None ->
  exists r w' ps,
    initialize w = (Ret r, w') /\ settings w' = r /\ r = JObj ps /\
    field r "enabled" = JBool false /\ field r "hasConsented" = JBool false /\
    field r "hasSeenBanner" = JBool false.
Proof.
  intros Hget Hitem. unfold initialize, try_catch.
  assert (E0 : load_settings w = (Ret tt, with_settings default_settings w)).
  { unfold load_settings.
    erewrite bind_ret by (unfold localStorage.getItem; by rewrite Hget, Hitem).
    reflexivity. }
  rewrite (bind_ret _ _ _ _ _ E0).
  destruct (ensure_userId_record (with_settings default_settings w) _ eq_refl)
    as (w1 & ps1 & E1 & S1 & _ & F1).
  rewrite (bind_ret _ _ _ _ _ E1).
  destruct (refresh_sessionId_record w1 ps1 S1) as (w2 & sid & E2 & S2).
  rewrite (bind_ret _ _ _ _ _ E2).
  rewrite (bind_ret _ _ _ _ _
             (backfill_hasSeenBanner_present w2 _ (JBool false) S2
                ltac:(rewrite prop_lookup_store_ne, F1 by done; reflexivity)
                eq_refl)).
  run. rewrite S2. run. eexists _, _, _. split; [done|]. split; [done|].
  split; [done|]. unfold field. run.
  rewrite !prop_lookup_store_ne, !F1 by done. repeat split; reflexivity.
Qed.

(** ** A record is held: what the two decisions leave *)

(** X6.  A record is held.  [grantConsent] returns normally and leaves
    [enabled], [hasConsented] and [hasSeenBanner] true and [consentDate]
    the current time in ISO form.  It issues one write, of the record it
    leaves, and that record is what the storage holds afterwards when
    the storage takes the write. *)
Lemma grantConsent_record_held w ps :
  settings w = JObj ps ->
  exists w',
    grantConsent w = (Ret tt, w') /\
    field (settings w') "enabled" = JBool true /\
    field (settings w') "hasConsented" = JBool true /\
    field (settings w') "hasSeenBanner" = JBool true /\
    field (settings w') "consentDate" = JStr (Date_toISOString (now w)) /\
    trace w' = trace w ++ [EvSetItem ANALYTICS_STORAGE_KEY
                             (JSON_stringify (settings w'))] /\
    (ls_set_throws w = false ->
     ls_items w' !! ANALYTICS_STORAGE_KEY = Some (JSON_stringify (settings w'))).
Proof.
  intros Hs.
  rewrite (grantConsent_on_record w w ps) by (try apply ensure_initialized_held;
                                               by rewrite ?Hs).
  eexists. split; [done|]. rewrite settings_after_save.
  cbn [settings with_settings].
  destruct (granted_fields ps (now w)) as (-> & -> & -> & ->).
  do 4 (split; [done|]). split.
  - by rewrite trace_after_save.
  - intros Hset. by rewrite stored_after_save.
Qed.

(** X7.  A record is held.  [revokeConsent] returns normally and leaves
    [enabled] false, [hasSeenBanner] true and [consentDate] the current
    time in ISO form; [hasConsented] is what it was.  It issues one
    write, of the record it leaves. *)
Lemma revokeConsent_record_held w ps :
  settings w = JObj ps ->
  exists w',
    revokeConsent w = (Ret tt, w') /\
    field (settings w') "enabled" = JBool false /\
    field (settings w') "hasSeenBanner" = JBool true /\
    field (settings w') "consentDate" = JStr (Date_toISOString (now w)) /\
    field (settings w') "hasConsented" = field (settings w) "hasConsented" /\
    trace w' = trace w ++ [EvSetItem ANALYTICS_STORAGE_KEY
                             (JSON_stringify (settings w'))].
Proof.
  intros Hs.
  rewrite (revokeConsent_on_record w w ps) by (try apply ensure_initialized_held;
                                                by rewrite ?Hs).
  eexists. split; [done|]. rewrite settings_after_save.
  cbn [settings with_settings].
  destruct (revoked_fields ps (now w)) as (-> & -> & -> & ->).
  rewrite Hs. do 4 (split; [done|]). by rewrite trace_after_save.
Qed.

End ConsentFacts.

(* ================================================================== *)
(** * WindowPersistenceService: the enabled flag and the stored size *)
(* ================================================================== *)

Section WindowFacts.
Context `{Runtime}.
Import WindowPersistenceService.

Lemma isEnabled_inv w b w' :
  isEnabled w = (Ret b, w') ->
  w' = w /\ ls_get_throws w = false /\
  b = match ls_items w !! PERSISTENCE_ENABLED_KEY with
      | None => true
      | Some s => String.eqb s "true"
      end.
Proof.
  unfold isEnabled, localStorage.getItem, bind, ret.
  destruct (ls_get_throws w); [done|]. by intros [= <- <-].
Qed.

Lemma isEnabled_eq w :
  ls_get_throws w = false ->
  isEnabled w = (Ret match ls_items w !! PERSISTENCE_ENABLED_KEY with
                     | None => true
                     | Some s => String.eqb s "true"
                     end, w).
Proof.
  intros Hget. unfold isEnabled, localStorage.getItem, bind, ret. by rewrite Hget.
Qed.

(** [isEnabled] reads the storage and nothing else. *)
Lemma isEnabled_frame w w' b :
  isEnabled w = (Ret b, w) ->
  ls_items w' = ls_items w -> ls_get_throws w' = ls_get_throws w ->
  isEnabled w' = (Ret b, w').
Proof.
  intros (_ & Hget & ->)%isEnabled_inv Hitems Hthrows.
  rewrite isEnabled_eq by congruence. by rewrite Hitems.
Qed.

Lemma setEnabled_false_eq w :
  ls_set_throws w = false -> ls_remove_throws w = false ->
  setEnabled false w
  = (Ret tt,
     with_items (fun m => delete WINDOW_SIZE_KEY
                            (<[PERSISTENCE_ENABLED_KEY := "false"]> m))
       (emit (EvRemoveItem WINDOW_SIZE_KEY)
          (emit (EvSetItem PERSISTENCE_ENABLED_KEY "false") w))).
Proof.
  intros Hset Hrm. open_world w.
  unfold setEnabled, clearWindowSize, localStorage.setItem, localStorage.removeItem.
  run. reflexivity.
Qed.

Lemma getSavedWindowSize_disabled w :
  isEnabled w = (Ret false, w) -> getSavedWindowSize w = (Ret JNull, w).
Proof. intros Hen. unfold getSavedWindowSize. by rewrite (bind_ret _ _ _ _ _ Hen). Qed.

(** The validation of [restoreWindowSize] on numbers is the range check. *)
Lemma validation_in_bounds width height :
  negb (truthy (JNum width)) || negb (truthy (JNum height))
  || js_lt (JNum width) 400 || js_lt (JNum height) 300
  || js_gt (JNum width) 4000 || js_gt (JNum height) 3000
  = negb (in_bounds width height).
Proof.
  unfold in_bounds, js_lt, js_gt, ToNumber, truthy.
  destruct (Z.eqb_spec width 0), (Z.eqb_spec height 0),
    (Z.ltb_spec width 400), (Z.ltb_spec height 300),
    (Z.ltb_spec 4000 width), (Z.ltb_spec 3000 height),
    (Z.leb_spec 400 width), (Z.leb_spec width 4000),
    (Z.leb_spec 300 height), (Z.leb_spec height 3000); simpl; try reflexivity; lia.
Qed.

(** [restoreWindowSize] up to the decision, on a stored record with
    numeric [width] and [height]. *)
Lemma restoreWindowSize_record w s v width height :
  isEnabled w = (Ret true, w) ->
  ls_items w !! WINDOW_SIZE_KEY = Some s ->
  s <> EmptyString ->
  JSON_parse s = Some v ->
  get_prop v "width" = Some (JNum width) ->
  get_prop v "height" = Some (JNum height) ->
  restoreWindowSize w
  = if in_bounds width height then
      try_catch (getCurrentWindow ;> setSize (JNum width) (JNum height) ;> ret true)
        (fun _ => ret false) w
    else (Ret false, w).
Proof.
  intros Hen Hitem Hs Hparse Hw Hh. unfold restoreWindowSize.
  rewrite (bind_ret _ _ _ _ _ Hen). apply isEnabled_inv in Hen as (_ & Hget & _).
  cbn [negb]. unfold try_catch, bind at 1, localStorage.getItem. rewrite Hget, Hitem.
  cbn [stored_truthy]. destruct (String.eqb s EmptyString) eqn:E.
  { apply String.eqb_eq in E. done. }
  cbn [negb default from_option id]. unfold bind at 1, parse_json.
  rewrite Hparse. unfold ret at 1.
  unfold bind at 1, read_prop. rewrite Hw. unfold ret at 1.
  unfold bind at 1. rewrite Hh. unfold ret at 1.
  rewrite validation_in_bounds. by destruct (in_bounds width height).
Qed.

Lemma restoreWindowSize_platform_ok w width height :
  tauri_missing w = false -> ipc_fails w = false ->
  try_catch (getCurrentWindow ;> setSize (JNum width) (JNum height) ;> ret true)
    (fun _ => ret false) w
  = (Ret true,
     with_win_size (width, height) (emit (EvSetSize (JNum width) (JNum height)) w)).
Proof.
  intros Htauri Hipc. unfold try_catch, bind, getCurrentWindow, setSize, ret.
  by rewrite Htauri, Hipc.
Qed.

Lemma restoreWindowSize_platform_fails w width height :
  tauri_missing w = true \/ ipc_fails w = true ->
  fst (try_catch (getCurrentWindow ;> setSize (JNum width) (JNum height) ;> ret true)
         (fun _ => ret false) w) = Ret false.
Proof.
  unfold try_catch, bind, getCurrentWindow, setSize, ret.
  destruct (tauri_missing w); [done|]. intros [Hf|Hf]; [done|]. by rewrite Hf.
Qed.

(** ** The debounced save *)

Lemma deferred_save_eq w :
  tauri_missing w = false -> ipc_fails w = false -> ls_set_throws w = false ->
  deferred_save w
  = (Ret tt,
     let value := JSON_stringify (window_size_record (win_size w) (now w)) in
     with_items (insert WINDOW_SIZE_KEY value)
       (emit (EvSetItem WINDOW_SIZE_KEY value) w)).
Proof.
  intros Htauri Hipc Hset.
  unfold deferred_save, try_catch, bind, getCurrentWindow, innerSize, Date_now,
    localStorage.setItem.
  by rewrite Htauri, Hipc, Hset.
Qed.

(** The state a call leaves from a state without orphans: one timer,
    due in 500ms, named by [saveTimeout]. *)
Lemma saveWindowSize_eq w :
  isEnabled w = (Ret true, w) ->
  no_orphans w ->
  saveWindowSize w
  = (Ret tt,
     with_saveTimeout (Some (next_timer w))
       (with_timers [(next_timer w, (now w + 500)%Z)] (Pos.succ (next_timer w)) w)).
Proof.
  intros Hen Horph. unfold saveWindowSize. rewrite (bind_ret _ _ _ _ _ Hen).
  clear Hen. unfold no_orphans in Horph. open_world w. cbn [negb].
  unfold setTimeout, clearTimeout. run.
  destruct so as [id|]; run; by rewrite Horph.
Qed.

Lemma saveWindowSize_disabled w :
  isEnabled w = (Ret false, w) -> saveWindowSize w = (Ret tt, w).
Proof. intros Hen. unfold saveWindowSize. by rewrite (bind_ret _ _ _ _ _ Hen). Qed.

End WindowFacts.

(** Equality of two worlds built by record updates. *)
Ltac world_eq :=
  cbv [WindowPersistenceService.armed with_items with_win_size with_now with_rng_pos with_timers
       with_settings with_saveTimeout emit
       ls_items ls_get_throws ls_set_throws ls_remove_throws tauri_missing
       ipc_fails win_size now rng rng_pos timers next_timer settings saveTimeout
       trace];
  f_equal; try lia.

Section Debounce.
Context `{Runtime}.
Import WindowPersistenceService.

Lemma advance_quiet w id due ms :
  timers w = [(id, due)] -> (now w + Z.of_N ms < due)%Z ->
  advance ms w = with_now (now w + Z.of_N ms) w.
Proof.
  intros Ht Hlt. unfold advance. rewrite Ht. cbn [length fire_due].
  rewrite Ht. cbn [earliest snd].
  destruct (Z.leb_spec due (now w + Z.of_N ms)); [lia|done].
Qed.

Lemma advance_fires w id due ms :
  timers w = [(id, due)] -> (now w <= due)%Z -> (due <= now w + Z.of_N ms)%Z ->
  advance ms w
  = with_now (now w + Z.of_N ms)
      (snd (deferred_save (with_now due (with_timers [] (next_timer w) w)))).
Proof.
  intros Ht Hle Hdue. unfold advance. rewrite Ht. cbn [length fire_due].
  rewrite Ht. cbn [earliest snd fst drop_timer List.filter].
  rewrite Pos.eqb_refl. cbn [negb].
  destruct (Z.leb_spec due (now w + Z.of_N ms)); [|lia].
  by rewrite Z.max_r.
Qed.

Lemma run_envs_quiet es : forall w id due,
  timers w = [(id, due)] -> (now w + Z.of_N (elapsed es) < due)%Z ->
  run_envs es w
  = with_now (now w + Z.of_N (elapsed es))
      (with_win_size (size_after es (win_size w)) w).
Proof.
  induction es as [|[ms|size] es IH]; intros w id due Ht Hlt.
  - open_world w. unfold run_envs, size_after. cbn [fold_left elapsed Z.of_N]. world_eq.
  - cbn [elapsed] in *. unfold run_envs in *. cbn [fold_left run_env].
    rewrite (advance_quiet w id due ms Ht) by lia.
    rewrite (IH _ id due); [|run; done|run; lia].
    open_world w. unfold size_after. cbn [fold_left]. world_eq.
  - cbn [elapsed] in *. unfold run_envs in *. cbn [fold_left run_env].
    unfold resize. rewrite (IH _ id due); [|run; done|run; lia].
    open_world w. unfold size_after. cbn [fold_left]. world_eq.
Qed.

Lemma first_call w :
  isEnabled w = (Ret true, w) -> no_orphans w ->
  saveWindowSize w
  = (Ret tt, armed (next_timer w) (Pos.succ (next_timer w)) (now w) (win_size w) w).
Proof.
  intros Hen Horph. rewrite saveWindowSize_eq by done.
  open_world w. world_eq.
Qed.

Lemma next_call w es id next t size :
  isEnabled w = (Ret true, w) -> (elapsed es < 500)%N ->
  saveWindowSize (run_envs es (armed id next t size w))
  = (Ret tt, armed next (Pos.succ next) (t + Z.of_N (elapsed es))
               (size_after es size) w).
Proof.
  intros Hen Hlt.
  rewrite (run_envs_quiet es _ id (t + 500)%Z);
    [|unfold armed; run; done|unfold armed; run; lia].
  rewrite saveWindowSize_eq; cycle 1.
  { eapply isEnabled_frame; [exact Hen|done..]. }
  { unfold no_orphans, armed. run. unfold drop_timer. cbn [List.filter fst].
    by rewrite Pos.eqb_refl. }
  open_world w. world_eq.
Qed.

(** After a burst one timer is pending, due 500ms after the last call. *)
Lemma burst_armed w gaps :
  isEnabled w = (Ret true, w) -> no_orphans w ->
  Forall (fun es => (elapsed es < 500)%N) gaps ->
  exists id next,
    burst gaps w = armed id next (now (burst gaps w)) (win_size (burst gaps w)) w.
Proof.
  intros Hen Horph Hgaps. unfold burst. rewrite first_call by done. cbn [snd].
  generalize (next_timer w) (Pos.succ (next_timer w)) (now w) (win_size w).
  induction Hgaps as [|es gaps Hes _ IH]; intros id next t size.
  - exists id, next. cbn [fold_left]. open_world w. world_eq.
  - cbn [fold_left]. rewrite next_call by done. cbn [snd]. apply IH.
Qed.

End Debounce.

(** ** The timer table *)

Section TimerFacts.
Context `{Runtime}.
Import WindowPersistenceService.

(** The deferred save leaves the timer table and [saveTimeout] alone. *)
Lemma deferred_save_timers w :
  timers (snd (deferred_save w)) = timers w /\
  saveTimeout (snd (deferred_save w)) = saveTimeout w /\
  now (snd (deferred_save w)) = now w.
Proof.
  unfold deferred_save, try_catch, bind, getCurrentWindow, innerSize, Date_now,
    localStorage.setItem, ret.
  destruct (tauri_missing w); [done|]. destruct (ipc_fails w); [done|].
  by destruct (ls_set_throws w).
Qed.

Lemma earliest_In ts t : earliest ts = Some t -> In t ts.
Proof.
  revert t. induction ts as [|t0 ts IH]; intros t; [done|]. cbn [earliest].
  destruct (earliest ts) as [t'|].
  - destruct (snd t' <? snd t0)%Z; intros [= <-]; [right; by apply IH|by left].
  - intros [= <-]. by left.
Qed.

Lemma earliest_least ts t :
  earliest ts = Some t -> forall t', In t' ts -> (snd t <= snd t')%Z.
Proof.
  revert t. induction ts as [|t0 ts IH]; intros t; [done|]. cbn [earliest].
  destruct (earliest ts) as [m|] eqn:Em.
  - specialize (IH m eq_refl).
    destruct (Z.ltb_spec (snd m) (snd t0)); intros [= <-] t' [<-|Hin];
      try lia; specialize (IH t' Hin); lia.
  - destruct ts as [|t1 ts]; [|cbn [earliest] in Em; by destruct (earliest ts) as [[]|];
                                 [destruct (_ <? _)%Z|]].
    intros [= <-] t' [<-|[]]. lia.
Qed.

Lemma drop_timer_shorter id due ts :
  In (id, due) ts -> (length (drop_timer id ts) < length ts)%nat.
Proof.
  unfold drop_timer. induction ts as [|t ts IH]; [done|]. intros [->|Hin].
  - cbn [List.filter fst]. rewrite Pos.eqb_refl. cbn [negb length].
    pose proof (List.filter_length_le
                  (fun t => negb (Pos.eqb (fst t) id)) ts) as Hle. lia.
  - cbn [List.filter]. specialize (IH Hin).
    destruct (negb (Pos.eqb (fst t) id)); cbn [length]; lia.
Qed.

Lemma drop_timer_In id ts t : In t (drop_timer id ts) -> In t ts.
Proof. unfold drop_timer. by intros [? _]%List.filter_In. Qed.

(** [fire_due] lets time stand where the last timer fired and never adds
    a timer. *)
Lemma fire_due_timers fuel target : forall w t,
  In t (timers (fire_due fuel target w)) -> In t (timers w).
Proof.
  induction fuel as [|fuel IH]; intros w t; [done|]. cbn [fire_due].
  destruct (earliest (timers w)) as [[id due]|]; [|done].
  destruct (due <=? target)%Z; [|done].
  intros Hin%IH. destruct (deferred_save_timers
    (with_now (Z.max (now w) due)
       (with_timers (drop_timer id (timers w)) (next_timer w) w))) as (Ht & _).
  rewrite Ht in Hin. by apply drop_timer_In in Hin.
Qed.

(** The fuel [advance] gives is enough: when it returns, every timer that
    is still pending is due later. *)
Lemma fire_due_complete fuel target : forall w,
  (length (timers w) <= fuel)%nat ->
  forall t, In t (timers (fire_due fuel target w)) -> (target < snd t)%Z.
Proof.
  induction fuel as [|fuel IH]; intros w Hlen t.
  - destruct (timers w) eqn:E; [|cbn in Hlen; lia]. cbn [fire_due]. by rewrite E.
  - cbn [fire_due]. destruct (earliest (timers w)) as [[id due]|] eqn:Ee.
    + destruct (Z.leb_spec due target).
      * apply IH. destruct (deferred_save_timers
          (with_now (Z.max (now w) due)
             (with_timers (drop_timer id (timers w)) (next_timer w) w))) as (-> & _).
        cbn [timers with_now with_timers].
        pose proof (drop_timer_shorter id due (timers w) (earliest_In _ _ Ee)). lia.
      * intros Hin. pose proof (earliest_least _ _ Ee t Hin). cbn [snd] in *. lia.
    + destruct (timers w) as [|t0 ts]; [done|].
      cbn [earliest] in Ee. destruct (earliest ts) as [m|]; [|done].
      by destruct (snd m <? snd t0)%Z.
Qed.

Lemma advance_complete ms w t :
  In t (timers (advance ms w)) -> (now (advance ms w) < snd t)%Z.
Proof.
  unfold advance. cbn [timers now with_now]. by apply fire_due_complete.
Qed.

(** ** The invariant *)

Lemma no_orphans_all w id :
  no_orphans w -> saveTimeout w = Some id ->
  forall t, In t (timers w) -> fst t = id.
Proof.
  unfold no_orphans, drop_timer. intros Horph Hs t Hin. rewrite Hs in Horph.
  destruct (Pos.eqb_spec (fst t) id) as [|Hne]; [done|].
  assert (In t []) as []. rewrite <- Horph. apply List.filter_In.
  split; [done|]. by apply negb_true_iff, Pos.eqb_neq.
Qed.

Lemma no_orphans_fire_due fuel target : forall w,
  no_orphans w -> no_orphans (fire_due fuel target w).
Proof.
  induction fuel as [|fuel IH]; intros w Horph; [done|]. cbn [fire_due].
  destruct (earliest (timers w)) as [[id due]|] eqn:Ee; [|done].
  destruct (due <=? target)%Z; [|done]. apply IH.
  destruct (deferred_save_timers
    (with_now (Z.max (now w) due)
       (with_timers (drop_timer id (timers w)) (next_timer w) w)))
    as (Ht & Hs & _).
  unfold no_orphans. rewrite Ht, Hs. cbn [timers saveTimeout with_now with_timers].
  apply earliest_In in Ee.
  destruct (saveTimeout w) as [sid|] eqn:Es.
  - rewrite (no_orphans_all w sid Horph Es _ Ee : id = sid).
    unfold no_orphans in Horph. rewrite Es in Horph. by rewrite Horph.
  - unfold no_orphans in Horph. rewrite Es in Horph. by rewrite Horph in Ee.
Qed.

Lemma no_orphans_advance ms w : no_orphans w -> no_orphans (advance ms w).
Proof.
  intros Horph. unfold advance.
  exact (no_orphans_fire_due (length (timers w)) (now w + Z.of_N ms) w Horph).
Qed.

Lemma no_orphans_saveWindowSize w :
  no_orphans w -> no_orphans (snd (saveWindowSize w)).
Proof.
  intros Horph. destruct (isEnabled w) as [[[]|e] w'] eqn:Hen.
  - apply isEnabled_inv in Hen as Hw. destruct Hw as (-> & _).
    rewrite saveWindowSize_eq by done. unfold no_orphans, drop_timer.
    cbn [snd saveTimeout timers with_saveTimeout with_timers List.filter fst].
    by rewrite Pos.eqb_refl.
  - apply isEnabled_inv in Hen as Hw. destruct Hw as (-> & _).
    by rewrite saveWindowSize_disabled.
  - unfold saveWindowSize. rewrite (bind_throw _ _ _ _ _ Hen). cbn [snd].
    revert Hen. unfold isEnabled, localStorage.getItem, bind, ret.
    destruct (ls_get_throws w); [by intros [= _ <-]|done].
Qed.

End TimerFacts.

(* ================================================================== *)
(** * The concrete runtime at work *)
(* ================================================================== *)

Section SampleChecks.
Import ConsentManager WindowPersistenceService Scenarios.

Example parse_legacy_record :
  Sample.parse legacy_record
  = Some (JObj [("enabled", JBool false); ("hasConsented", JBool false)]).
Proof. reflexivity. Qed.

Example parse_rejects_what_is_not_json :
  Sample.parse "{bad" = None /\ Sample.parse EmptyString = None /\
  Sample.parse "12 3" = None.
Proof. repeat split; reflexivity. Qed.

Example stringify_window_size_record :
  Sample.stringify (window_size_record (800, 600)%Z 1700000000500)
  = Sample.json "{'width':800,'height':600,'timestamp':1700000000500}".
Proof. reflexivity. Qed.

Example parse_after_stringify :
  Sample.parse (Sample.stringify (settings initialized_world))
  = Some (settings initialized_world).
Proof. vm_compute. reflexivity. Qed.

Example toISOString_samples :
  Sample.toISOString 0 = "1970-01-01T00:00:00.000Z" /\
  Sample.toISOString 951782400000 = "2000-02-29T00:00:00.000Z" /\
  Sample.toISOString 1700000000000 = "2023-11-14T22:13:20.000Z".
Proof. repeat split; reflexivity. Qed.

Example anonymous_id_samples :
  fst (generateAnonymousId (Sample.world 0))
  = Ret "00000000-0000-4000-8000-000000000000" /\
  fst (generateAnonymousId (Sample.world (2 ^ 53 - 1)))
  = Ret "ffffffff-ffff-4fff-bfff-ffffffffffff".
Proof. split; vm_compute; reflexivity. Qed.

End SampleChecks.

(* ================================================================== *)
(** * The consent record: what the specification says of it *)
(* ================================================================== *)

Section ConsentClaims.
Context `{Runtime}.
Import ConsentManager.

(** C1.  The specification says that, for a stored record that lacks
    [hasSeenBanner], [initialize] sets the field to [true] if and only
    if [hasConsented], [consentDate] or [userId] is present in the stored
    record, and to [false] otherwise.  The code decides the backfill
    after it has given the record a [userId]: for every stored record
    that lacks the field - also one with none of the three - the field
    is set to [true]. *)
Theorem initialize_backfill_always_seen w s ps :
  ls_get_throws w = false ->
  ls_items w !! ANALYTICS_STORAGE_KEY = Some s ->
  s <> EmptyString ->
  JSON_parse s = Some (JObj ps) ->
  prop_lookup "hasSeenBanner" ps = None ->
  exists r w',
    initialize w = (Ret r, w') /\ settings w' = r /\
    field r "hasSeenBanner" = JBool true.
Proof.
  intros Hget Hitem Hs Hparse Hseen. unfold initialize, try_catch.
  rewrite (bind_ret _ _ _ _ _ (load_settings_stored w s _ Hget Hitem Hs Hparse)).
  destruct (ensure_userId_record (with_settings (JObj ps) w) ps eq_refl)
    as (w1 & ps1 & E1 & S1 & U1 & F1).
  rewrite (bind_ret _ _ _ _ _ E1).
  destruct (refresh_sessionId_record w1 ps1 S1) as (w2 & sid & E2 & S2).
  rewrite (bind_ret _ _ _ _ _ E2).
  destruct (backfill_hasSeenBanner_record w2 _ S2) as (w3 & E3 & S3).
  { rewrite prop_lookup_store_ne by done. by rewrite F1. }
  { unfold field in *. run. run in U1. by rewrite prop_lookup_store_ne. }
  rewrite (bind_ret _ _ _ _ _ E3). run. rewrite S3. run.
  eexists _, _. split; [done|]. split; [done|].
  unfold field. run. by rewrite prop_lookup_store_eq.
Qed.

(** C4.  If loading or parsing the stored record fails - the storage
    throws, or the stored string, whatever it is, does not parse -
    [initialize] returns the default settings, raises nothing, issues no
    write and leaves storage (and everything else) as it was. *)
Theorem initialize_load_failure_defaults w :
  load_fails w ->
  initialize w = (Ret default_settings, w) /\
  default_settings = JObj [("enabled", JBool false); ("hasConsented", JBool false);
                           ("hasSeenBanner", JBool false)] /\
  trace (snd (initialize w)) = trace w /\
  ls_items (snd (initialize w)) = ls_items w.
Proof.
  intros [e He]%load_settings_throws.
  assert (E : initialize w = (Ret default_settings, w)).
  { unfold initialize, try_catch. by rewrite (bind_throw _ _ _ _ _ He). }
  by rewrite E.
Qed.

(** C5, amended.  After [deleteAllData] (the storage accepting the
    removal) the record has [enabled], [hasConsented] and [hasSeenBanner]
    false and a [userId] that is the identifier [generateAnonymousId]
    draws from the random source at that moment; nothing compares it with
    the [userId] held before.  The removal and one write of the new
    record are issued. *)
Theorem deleteAllData_resets_record w :
  ls_remove_throws w = false ->
  exists uid sid w',
    fst (generateAnonymousId w) = Ret uid /\
    deleteAllData w = (Ret tt, w') /\
    settings w' = JObj [("enabled", JBool false); ("hasConsented", JBool false);
                        ("hasSeenBanner", JBool false);
                        ("userId", JStr uid); ("sessionId", JStr sid)] /\
    trace w' = trace w ++ [EvRemoveItem ANALYTICS_STORAGE_KEY;
                           EvSetItem ANALYTICS_STORAGE_KEY
                             (JSON_stringify (settings w'))].
Proof.
  intros Hrm.
  pose (w1 := with_items (delete ANALYTICS_STORAGE_KEY)
                (emit (EvRemoveItem ANALYTICS_STORAGE_KEY) w)).
  assert (E0 : localStorage.removeItem ANALYTICS_STORAGE_KEY w = (Ret tt, w1)).
  { unfold localStorage.removeItem. by rewrite Hrm. }
  destruct (generateAnonymousId_spec w1) as (uid & Eid & _).
  destruct (generateSessionId_eq (with_rng_pos (rng_pos w1 + 31) w1)) as [sid Esid].
  exists uid, sid. eexists. split.
  { rewrite (generateAnonymousId_rng w w1 eq_refl eq_refl). by rewrite Eid. }
  unfold deleteAllData. rewrite (bind_ret _ _ _ _ _ E0).
  erewrite bind_ret; cycle 1.
  { rewrite (bind_ret _ _ _ _ _ Eid), (bind_ret _ _ _ _ _ Esid). reflexivity. }
  save_step. split; [reflexivity|].
  rewrite settings_after_save. split; [reflexivity|].
  rewrite trace_after_save by reflexivity.
  cbn [trace with_settings with_rng_pos]. subst w1. cbn [trace with_items emit].
  rewrite <- app_assoc. reflexivity.
Qed.

(** C6.  The specification says that [revokeConsent] leaves
    [enabled = false], [hasSeenBanner = true] and a stamped [consentDate]
    from every prior state.  When no record is held and none can be
    loaded, [initialize] falls back to the defaults without keeping them,
    and the first assignment of [revokeConsent] is made on [null]: the
    call raises a TypeError and changes nothing. *)
Theorem revokeConsent_raises_when_unloadable w :
  settings w = JNull -> load_fails w ->
  revokeConsent w = (Throw TypeError, w).
Proof.
  intros Hs Hfail. unfold revokeConsent.
  rewrite (bind_ret _ _ _ _ _ (ensure_initialized_load_fails w Hs Hfail)).
  apply bind_throw. unfold assign_settings. by rewrite Hs.
Qed.

(** C7.  The specification says that [grantConsent] leaves
    [enabled = true], [hasConsented = true], [hasSeenBanner = true], a
    stamped [consentDate] and a persisted record from every prior state.
    When no record is held and none can be loaded, the first assignment
    of [grantConsent] is made on [null]: the call raises a TypeError,
    changes nothing and writes nothing. *)
Theorem grantConsent_raises_when_unloadable w :
  settings w = JNull -> load_fails w ->
  grantConsent w = (Throw TypeError, w).
Proof.
  intros Hs Hfail. unfold grantConsent.
  rewrite (bind_ret _ _ _ _ _ (ensure_initialized_load_fails w Hs Hfail)).
  apply bind_throw. unfold assign_settings. by rewrite Hs.
Qed.

End ConsentClaims.

(** ** On concrete inputs *)

Section ConsentExamples.
Import ConsentManager Scenarios.
#[local] Existing Instance Sample.runtime.

(** C1, on [legacy_record]: the banner is marked as seen. *)
Lemma initialize_backfill_always_seen_witness :
  exists r w',
    initialize (Sample.stored ANALYTICS_STORAGE_KEY legacy_record (Sample.world 0))
    = (Ret r, w') /\ settings w' = r /\ field r "hasSeenBanner" = JBool true.
Proof.
  apply (initialize_backfill_always_seen _ legacy_record
           [("enabled", JBool false); ("hasConsented", JBool false)]).
  - reflexivity.
  - vm_compute. reflexivity.
  - vm_compute. discriminate.
  - vm_compute. reflexivity.
  - reflexivity.
Defined.

Lemma corrupt_world_load_fails : load_fails corrupt_world.
Proof.
  right. exists "{bad". repeat split; try reflexivity. discriminate.
Defined.

(** C4, on a stored string that does not parse. *)
Lemma initialize_load_failure_defaults_witness :
  initialize corrupt_world = (Ret default_settings, corrupt_world) /\
  default_settings = JObj [("enabled", JBool false); ("hasConsented", JBool false);
                           ("hasSeenBanner", JBool false)] /\
  trace (snd (initialize corrupt_world)) = trace corrupt_world /\
  ls_items (snd (initialize corrupt_world)) = ls_items corrupt_world.
Proof.
  apply (initialize_load_failure_defaults corrupt_world).
  exact corrupt_world_load_fails.
Defined.

(** C6, on [corrupt_world]: no record is held, the stored string does
    not parse, and [revokeConsent] raises. *)
Lemma revokeConsent_raises_when_unloadable_witness :
  revokeConsent corrupt_world = (Throw TypeError, corrupt_world).
Proof.
  apply (revokeConsent_raises_when_unloadable corrupt_world).
  - reflexivity.
  - exact corrupt_world_load_fails.
Defined.

(** C7, on [corrupt_world]: [grantConsent] raises as well. *)
Lemma grantConsent_raises_when_unloadable_witness :
  grantConsent corrupt_world = (Throw TypeError, corrupt_world).
Proof.
  apply (grantConsent_raises_when_unloadable corrupt_world).
  - reflexivity.
  - exact corrupt_world_load_fails.
Defined.

(** C5, amended, on [initialized_world]. *)
Lemma deleteAllData_resets_record_witness :
  exists uid sid w',
    fst (generateAnonymousId initialized_world) = Ret uid /\
    deleteAllData initialized_world = (Ret tt, w') /\
    settings w' = JObj [("enabled", JBool false); ("hasConsented", JBool false);
                        ("hasSeenBanner", JBool false);
                        ("userId", JStr uid); ("sessionId", JStr sid)] /\
    trace w' = trace initialized_world
               ++ [EvRemoveItem ANALYTICS_STORAGE_KEY;
                   EvSetItem ANALYTICS_STORAGE_KEY (JSON_stringify (settings w'))].
Proof.
  apply (deleteAllData_resets_record initialized_world). reflexivity.
Defined.

(** C5 as the specification words it fails on [initialized_world]: a
    [userId] is held, [deleteAllData] completes, and the record it builds
    has the very same [userId], because the random source drew the same
    digits again. *)
Lemma deleteAllData_userId_collision :
  field (settings initialized_world) "userId"
  = JStr "00000000-0000-4000-8000-000000000000" /\
  fst (deleteAllData initialized_world) = Ret tt /\
  field (settings (snd (deleteAllData initialized_world))) "userId"
  = field (settings initialized_world) "userId".
Proof. vm_compute. repeat split; reflexivity. Qed.

(** What [grantConsent] and [revokeConsent] do when a record is held. *)
Example grantConsent_on_initialized_world :
  fst (grantConsent initialized_world) = Ret tt /\
  let r := settings (snd (grantConsent initialized_world)) in
  field r "enabled" = JBool true /\ field r "hasConsented" = JBool true /\
  field r "hasSeenBanner" = JBool true /\
  field r "consentDate" = JStr "2023-11-14T22:13:20.000Z" /\
  ls_items (snd (grantConsent initialized_world)) !! ANALYTICS_STORAGE_KEY
  = Some (JSON_stringify r).
Proof. vm_compute. repeat split; reflexivity. Qed.

End ConsentExamples.

(* ================================================================== *)
(** * The window size: what the specification says of it *)
(* ================================================================== *)

Section WindowClaims.
Context `{Runtime}.
Import WindowPersistenceService.

(** C3.  With persistence enabled and a stored [WindowSize] record,
    [restoreWindowSize] returns false and issues no resize call when the
    width is outside [400, 4000] or the height outside [300, 3000]; when
    the record is within bounds (and the platform window takes the call)
    it issues exactly one resize call, with exactly that width and
    height, and returns true. *)
Theorem restoreWindowSize_validates_bounds w s v width height :
  isEnabled w = (Ret true, w) ->
  ls_items w !! WINDOW_SIZE_KEY = Some s ->
  s <> EmptyString ->
  JSON_parse s = Some v ->
  get_prop v "width" = Some (JNum width) ->
  get_prop v "height" = Some (JNum height) ->
  (in_bounds width height = false ->
   restoreWindowSize w = (Ret false, w)) /\
  (in_bounds width height = true ->
   tauri_missing w = false -> ipc_fails w = false ->
   exists w',
     restoreWindowSize w = (Ret true, w') /\
     trace w' = trace w ++ [EvSetSize (JNum width) (JNum height)] /\
     win_size w' = (width, height)).
Proof.
  intros Hen Hitem Hs Hparse Hw Hh.
  rewrite (restoreWindowSize_record w s v width height) by done.
  split; intros Hb; rewrite Hb; [done|].
  intros Htauri Hipc. rewrite restoreWindowSize_platform_ok by done.
  by eexists.
Qed.

(** C8.  [isEnabled] is true when the flag key is absent; on a storage
    that takes the calls, [setEnabled(false)] removes the stored size at
    once, and [getSavedWindowSize] then returns [null], whatever was
    stored before. *)
Theorem setEnabled_false_clears_size w :
  ls_get_throws w = false -> ls_set_throws w = false ->
  ls_remove_throws w = false ->
  (ls_items w !! PERSISTENCE_ENABLED_KEY = None -> isEnabled w = (Ret true, w)) /\
  exists w',
    setEnabled false w = (Ret tt, w') /\
    ls_items w' !! WINDOW_SIZE_KEY = None /\
    getSavedWindowSize w' = (Ret JNull, w').
Proof.
  intros Hget Hset Hrm. split.
  - intros Habsent. rewrite isEnabled_eq by done. by rewrite Habsent.
  - eexists. split; [by apply setEnabled_false_eq|]. split.
    + cbn [ls_items with_items]. apply lookup_delete_eq.
    + apply getSavedWindowSize_disabled.
      rewrite isEnabled_eq by done. cbn [ls_items with_items emit].
      rewrite lookup_delete_ne by done. by rewrite lookup_insert_eq.
Qed.

(** C10.  [getSavedWindowSize] does not validate: with persistence
    enabled it returns whatever the stored string parses to, also a
    record that [restoreWindowSize] rejects as out of range. *)
Theorem getSavedWindowSize_unvalidated w s v :
  isEnabled w = (Ret true, w) ->
  ls_items w !! WINDOW_SIZE_KEY = Some s ->
  s <> EmptyString ->
  JSON_parse s = Some v ->
  getSavedWindowSize w = (Ret v, w) /\
  (forall width height,
     get_prop v "width" = Some (JNum width) ->
     get_prop v "height" = Some (JNum height) ->
     in_bounds width height = false ->
     restoreWindowSize w = (Ret false, w)).
Proof.
  intros Hen Hitem Hs Hparse. split.
  - unfold getSavedWindowSize. rewrite (bind_ret _ _ _ _ _ Hen).
    apply isEnabled_inv in Hen as (_ & Hget & _).
    cbn [negb]. unfold try_catch, bind, localStorage.getItem. rewrite Hget, Hitem.
    cbn [stored_truthy]. destruct (String.eqb s EmptyString) eqn:E.
    { apply String.eqb_eq in E. done. }
    run. unfold parse_json. by rewrite Hparse.
  - intros width height Hw Hh Hb.
    rewrite (restoreWindowSize_record w s v width height) by done.
    by rewrite Hb.
Qed.

(** C2, amended.  Persistence is enabled, the storage and the platform
    take the calls.  A first call to [saveWindowSize], then one more call
    after each of [gaps], each less than 500ms after the one before;
    then [tail], less than 500ms, and a wait that reaches the 500ms.
    Exactly one write of the size record is issued, and no timer is left
    pending.  The width and height written are those the window has when
    the deferred save runs, 500ms after the last call - [win_size w2] -
    whatever they were at the time of that call. *)
Theorem debounce_single_write_at_fire_time w gaps tail ms :
  isEnabled w = (Ret true, w) ->
  ls_set_throws w = false -> tauri_missing w = false -> ipc_fails w = false ->
  no_orphans w ->
  Forall (fun es => (elapsed es < 500)%N) gaps ->
  (elapsed tail < 500)%N -> (500 <= elapsed tail + ms)%N ->
  let w1 := burst gaps w in
  let w2 := run_envs tail w1 in
  let w3 := advance ms w2 in
  let value := JSON_stringify (window_size_record (win_size w2) (now w1 + 500)) in
  trace w3 = trace w ++ [EvSetItem WINDOW_SIZE_KEY value] /\
  ls_items w3 !! WINDOW_SIZE_KEY = Some value /\
  timers w3 = [].
Proof.
  intros Hen Hset Htauri Hipc Horph Hgaps Htail Hms w1 w2 w3.
  destruct (burst_armed w gaps Hen Horph Hgaps) as (id & next & Hw1).
  fold w1 in Hw1.
  assert (Hw2 : w2 = with_now (now w1 + Z.of_N (elapsed tail))
                       (with_win_size (size_after tail (win_size w1)) w1)).
  { subst w2. apply (run_envs_quiet tail w1 id (now w1 + 500)%Z); [|lia].
    rewrite Hw1 at 1. reflexivity. }
  assert (Hw3 : w3 = with_now (now w2 + Z.of_N ms)
                       (snd (deferred_save
                               (with_now (now w1 + 500)%Z
                                  (with_timers [] (next_timer w2) w2))))).
  { subst w3. apply (advance_fires w2 id (now w1 + 500)%Z ms).
    - rewrite Hw2. cbn [timers with_now with_win_size]. rewrite Hw1 at 1. reflexivity.
    - rewrite Hw2. cbn [now with_now]. lia.
    - rewrite Hw2. cbn [now with_now]. lia. }
  assert (Hflags : tauri_missing w2 = false /\ ipc_fails w2 = false /\
                   ls_set_throws w2 = false /\ trace w2 = trace w /\
                   ls_items w2 = ls_items w).
  { rewrite Hw2, Hw1. by cbn. }
  destruct Hflags as (Ht2 & Hi2 & Hs2 & Htr2 & Hit2).
  rewrite Hw3, deferred_save_eq by done.
  cbn [snd trace ls_items timers with_now with_items with_timers emit win_size
       now].
  rewrite Htr2. split; [done|]. split; [apply lookup_insert_eq|done].
Qed.

(** C9.  A save scheduled while persistence is enabled is not cancelled
    by [setEnabled(false)]: the timer stays, [setEnabled] clears the
    stored size, and when the 500ms are over the deferred save runs
    without looking at the flag and stores a size record, although
    persistence is disabled by then. *)
Theorem deferred_save_survives_disable w ms :
  isEnabled w = (Ret true, w) ->
  ls_set_throws w = false -> ls_remove_throws w = false ->
  tauri_missing w = false -> ipc_fails w = false ->
  no_orphans w ->
  (500 <= ms)%N ->
  let w1 := snd (saveWindowSize w) in
  let w2 := snd (setEnabled false w1) in
  let w3 := advance ms w2 in
  timers w1 = [(next_timer w, (now w + 500)%Z)] /\
  timers w2 = timers w1 /\
  ls_items w2 !! WINDOW_SIZE_KEY = None /\
  isEnabled w3 = (Ret false, w3) /\
  ls_items w3 !! WINDOW_SIZE_KEY
  = Some (JSON_stringify (window_size_record (win_size w) (now w + 500))).
Proof.
  intros Hen Hset Hrm Htauri Hipc Horph Hms w1 w2 w3.
  apply isEnabled_inv in Hen as Hen'. destruct Hen' as (_ & Hget & _).
  subst w3 w2 w1. rewrite saveWindowSize_eq by done. cbn [snd].
  rewrite setEnabled_false_eq by done. cbn [snd].
  erewrite advance_fires; [|reflexivity|cbn [now with_items emit with_saveTimeout
                                              with_timers]; lia..].
  rewrite deferred_save_eq by done. cbn [snd].
  split; [done|]. split; [done|]. split.
  { cbn [ls_items with_items]. apply lookup_delete_eq. }
  split.
  - rewrite isEnabled_eq by done.
    cbn [ls_items with_now with_items emit with_timers with_saveTimeout].
    rewrite lookup_insert_ne by done. rewrite lookup_delete_ne by done.
    by rewrite lookup_insert_eq.
  - cbn [ls_items with_now with_items emit with_timers with_saveTimeout win_size
         now].
    apply lookup_insert_eq.
Qed.

End WindowClaims.

(** ** On concrete inputs *)

Section WindowExamples.
Import WindowPersistenceService Scenarios.
#[local] Existing Instance Sample.runtime.

(** C3, on the two records: 200x200 is not applied, 1920x1080 is applied
    by one resize call. *)
Lemma restoreWindowSize_validates_bounds_witness :
  restoreWindowSize small_world = (Ret false, small_world) /\
  exists w',
    restoreWindowSize hd_world = (Ret true, w') /\
    trace w' = trace hd_world ++ [EvSetSize (JNum 1920) (JNum 1080)] /\
    win_size w' = (1920, 1080)%Z.
Proof.
  split.
  - refine (proj1 (restoreWindowSize_validates_bounds small_world small_record
                     (JObj [("width", JNum 200); ("height", JNum 200);
                            ("timestamp", JNum 1699999000000)])
                     200 200 _ _ _ _ _ _) _);
      try reflexivity; vm_compute; try reflexivity; discriminate.
  - refine (proj2 (restoreWindowSize_validates_bounds hd_world hd_record
                     (JObj [("width", JNum 1920); ("height", JNum 1080);
                            ("timestamp", JNum 1699999000000)])
                     1920 1080 _ _ _ _ _ _) _ _ _);
      try reflexivity; vm_compute; try reflexivity; discriminate.
Defined.

(** C8, on a storage that holds a size record and no flag. *)
Lemma setEnabled_false_clears_size_witness :
  (ls_items hd_world !! PERSISTENCE_ENABLED_KEY = None ->
   isEnabled hd_world = (Ret true, hd_world)) /\
  exists w',
    setEnabled false hd_world = (Ret tt, w') /\
    ls_items w' !! WINDOW_SIZE_KEY = None /\
    getSavedWindowSize w' = (Ret JNull, w').
Proof.
  apply (setEnabled_false_clears_size hd_world); reflexivity.
Defined.

(** C10, on the 200x200 record: returned as stored, though
    [restoreWindowSize] rejects it. *)
Lemma getSavedWindowSize_unvalidated_witness :
  getSavedWindowSize small_world
  = (Ret (JObj [("width", JNum 200); ("height", JNum 200);
                ("timestamp", JNum 1699999000000)]), small_world) /\
  restoreWindowSize small_world = (Ret false, small_world).
Proof.
  destruct (getSavedWindowSize_unvalidated small_world small_record
              (JObj [("width", JNum 200); ("height", JNum 200);
                     ("timestamp", JNum 1699999000000)]))
    as [Hsaved Hrestore];
    [reflexivity | vm_compute; reflexivity | vm_compute; discriminate
    | vm_compute; reflexivity |].
  split; [exact Hsaved|].
  apply (Hrestore 200 200)%Z; reflexivity.
Defined.

(** C9, from a healthy world with an 800x600 window. *)
Lemma deferred_save_survives_disable_witness :
  exists w3,
    w3 = advance 500 (snd (setEnabled false (snd (saveWindowSize (Sample.world 0)))))
    /\ isEnabled w3 = (Ret false, w3)
    /\ ls_items w3 !! WINDOW_SIZE_KEY
       = Some (Sample.json "{'width':800,'height':600,'timestamp':1700000000500}").
Proof.
  eexists. split; [reflexivity|].
  destruct (deferred_save_survives_disable (Sample.world 0) 500)
    as (_ & _ & _ & Hflag & Hsize);
    [reflexivity .. | lia |].
  split; [exact Hflag | exact Hsize].
Defined.

(** C2, amended, on [three_calls] followed by [after_last_call]: one
    write, of the size the window has when the timer fires. *)
Lemma debounce_single_write_at_fire_time_witness :
  exists w3,
    w3 = advance 300 (run_envs after_last_call (burst three_calls (Sample.world 0)))
    /\ trace w3
       = [EvSetItem WINDOW_SIZE_KEY
            (Sample.json "{'width':1024,'height':768,'timestamp':1700000001099}")].
Proof.
  eexists. split; [reflexivity|].
  destruct (debounce_single_write_at_fire_time (Sample.world 0)
              three_calls after_last_call 300) as [Htrace _];
    [reflexivity .. | repeat constructor | reflexivity | vm_compute; discriminate |].
  exact Htrace.
Defined.

(** C2 as the specification words it fails: one call while the window is
    800x600, the window resized to 1024x768 before the 500ms are over.
    The size written is 1024x768 and not the 800x600 the window had at
    the time of the call. *)
Lemma debounce_size_at_last_call_counterexample :
  exists w1 w3,
    w1 = burst [] (Sample.world 0) /\
    w3 = advance 500 (run_envs [Resize (1024, 768)%Z] w1) /\
    win_size w1 = (800, 600)%Z /\
    trace w3
    = [EvSetItem WINDOW_SIZE_KEY
         (Sample.json "{'width':1024,'height':768,'timestamp':1700000000500}")] /\
    (forall t, trace w3
               <> [EvSetItem WINDOW_SIZE_KEY
                     (JSON_stringify (window_size_record (win_size w1) t))]).
Proof.
  eexists _, _. split; [reflexivity|]. split; [reflexivity|].
  split; [reflexivity|]. split; [vm_compute; reflexivity|].
  intros t Heq. vm_compute in Heq. discriminate Heq.
Qed.

End WindowExamples.

(* ================================================================== *)
(** * ConsentManager: runs of [initialize] and of the decisions *)
(* ================================================================== *)

Section MoreConsentFacts.
Context `{Runtime}.
Import ConsentManager.

(** [saveSettings] touches the storage content and the trace only. *)
Lemma after_save_frame w :
  now (after_save w) = now w /\
  ls_get_throws (after_save w) = ls_get_throws w /\
  ls_set_throws (after_save w) = ls_set_throws w /\
  ls_remove_throws (after_save w) = ls_remove_throws w /\
  rng (after_save w) = rng w /\ rng_pos (after_save w) = rng_pos w.
Proof.
  unfold after_save. destruct (truthy (settings w)); [|repeat split; reflexivity].
  destruct (ls_set_throws w) eqn:E; repeat split; try reflexivity; exact E.
Qed.

Lemma ensure_userId_present w ps :
  settings w = JObj ps -> truthy (field (JObj ps) "userId") = true ->
  ensure_userId w = (Ret tt, w).
Proof.
  intros Hs Hu. unfold field in Hu. run in Hu.
  unfold ensure_userId. run. rewrite Hs. run. rewrite Hu. reflexivity.
Qed.

Lemma ensure_userId_absent w ps :
  settings w = JObj ps -> truthy (field (JObj ps) "userId") = false ->
  exists uid,
    fst (generateAnonymousId w) = Ret uid /\
    ensure_userId w
    = (Ret tt, after_save (with_settings (JObj (prop_store "userId" (JStr uid) ps))
                             (with_rng_pos (rng_pos w + 31) w))).
Proof.
  intros Hs Hu. unfold field in Hu. run in Hu.
  destruct (generateAnonymousId_spec w) as (uid & Hid & _). exists uid.
  split; [by rewrite Hid|].
  unfold ensure_userId. run. rewrite Hs. run. rewrite Hu. run.
  rewrite (bind_ret _ _ _ _ _ Hid). unfold assign_settings at 1.
  unfold bind at 1. cbn [settings with_rng_pos]. rewrite Hs. cbn [set_prop].
  save_step. reflexivity.
Qed.

Lemma refresh_sessionId_eq w ps :
  settings w = JObj ps ->
  exists sid,
    fst (generateSessionId w) = Ret sid /\
    refresh_sessionId w
    = (Ret tt, with_settings (JObj (prop_store "sessionId" (JStr sid) ps))
                 (with_rng_pos (S (rng_pos w)) w)).
Proof.
  intros Hs. destruct (generateSessionId_eq w) as [sid Hsid]. exists sid.
  split; [by rewrite Hsid|].
  unfold refresh_sessionId. run. rewrite Hs. run.
  rewrite (bind_ret _ _ _ _ _ Hsid). unfold assign_settings.
  cbn [settings with_rng_pos]. rewrite Hs. reflexivity.
Qed.


(** The record of a first run, before and after the session id. *)
Lemma initialize_first_run_eq w :
  ls_get_throws w = false ->
  ls_items w !! ANALYTICS_STORAGE_KEY = None ->
  exists uid sid,
    fst (generateAnonymousId w) = Ret uid /\
    let r0 := JObj [("enabled", JBool false); ("hasConsented", JBool false);
                    ("hasSeenBanner", JBool false); ("userId", JStr uid)] in
    let r := JObj [("enabled", JBool false); ("hasConsented", JBool false);
                   ("hasSeenBanner", JBool false);
                   ("userId", JStr uid); ("sessionId", JStr sid)] in
    initialize w
    = (Ret r,
       with_settings r
         (with_rng_pos (S (rng_pos w + 31))
            (after_save (with_settings r0 (with_rng_pos (rng_pos w + 31) w))))).
Proof.
  intros Hget Hitem. unfold initialize, try_catch.
  assert (E0 : load_settings w = (Ret tt, with_settings default_settings w)).
  { unfold load_settings.
    erewrite bind_ret by (unfold localStorage.getItem; by rewrite Hget, Hitem).
    reflexivity. }
  rewrite (bind_ret _ _ _ _ _ E0).
  destruct (ensure_userId_absent (with_settings default_settings w) _ eq_refl eq_refl)
    as (uid & Huid & E1).
  rewrite (bind_ret _ _ _ _ _ E1).
  match type of E1 with _ = (_, ?W1) =>
    destruct (refresh_sessionId_eq W1 _ (settings_after_save _)) as (sid & _ & E2)
  end.
  rewrite (bind_ret _ _ _ _ _ E2).
  erewrite bind_ret; cycle 1.
  { eapply (backfill_hasSeenBanner_present _ _ (JBool false)); [reflexivity| |reflexivity].
    cbn [prop_store String.eqb Ascii.eqb Bool.eqb prop_lookup default_settings].
    reflexivity. }
  exists uid, sid. split.
  { rewrite <- Huid. apply generateAnonymousId_rng; reflexivity. }
  cbn zeta. run. f_equal. open_world w. unfold after_save. run.
  destruct st; reflexivity.
Qed.

(** [initialize] on a stored record that has a [userId] and a
    [hasSeenBanner]. *)
Lemma initialize_complete_record_eq w s ps seen :
  ls_get_throws w = false ->
  ls_items w !! ANALYTICS_STORAGE_KEY = Some s ->
  s <> EmptyString ->
  JSON_parse s = Some (JObj ps) ->
  truthy (field (JObj ps) "userId") = true ->
  prop_lookup "hasSeenBanner" ps = Some seen -> is_undefined seen = false ->
  exists sid,
    fst (generateSessionId w) = Ret sid /\
    let r := JObj (prop_store "sessionId" (JStr sid) ps) in
    initialize w = (Ret r, with_settings r (with_rng_pos (S (rng_pos w)) w)).
Proof.
  intros Hget Hitem Hs Hparse Huid Hseen Hdef. unfold initialize, try_catch.
  rewrite (bind_ret _ _ _ _ _ (load_settings_stored w s _ Hget Hitem Hs Hparse)).
  rewrite (bind_ret _ _ _ _ _
             (ensure_userId_present (with_settings (JObj ps) w) ps eq_refl Huid)).
  destruct (refresh_sessionId_eq (with_settings (JObj ps) w) ps eq_refl)
    as (sid & Hsid & E2).
  rewrite (bind_ret _ _ _ _ _ E2).
  erewrite bind_ret; cycle 1.
  { eapply (backfill_hasSeenBanner_present _ _ seen); [reflexivity| |exact Hdef].
    rewrite prop_lookup_store_ne by discriminate. exact Hseen. }
  exists sid. split; [exact Hsid|]. cbn zeta. run. reflexivity.
Qed.

End MoreConsentFacts.

Section ConsentProperties.
Context `{Runtime}.
Import ConsentManager.

(** X1.  First run: nothing is stored under the settings key and the
    storage answers.  [initialize] builds the default record, gives it a
    generated [userId] and a [sessionId], and returns it.  Exactly one
    write is issued, right after the [userId] is assigned: what is
    persisted is the record with the [userId] and without the
    [sessionId]. *)
Theorem initialize_first_run_writes_once w :
  ls_get_throws w = false ->
  ls_items w !! ANALYTICS_STORAGE_KEY = None ->
  exists uid sid r w',
    fst (generateAnonymousId w) = Ret uid /\
    initialize w = (Ret r, w') /\ settings w' = r /\
    r = JObj [("enabled", JBool false); ("hasConsented", JBool false);
              ("hasSeenBanner", JBool false);
              ("userId", JStr uid); ("sessionId", JStr sid)] /\
    let persisted :=
      JSON_stringify (JObj [("enabled", JBool false); ("hasConsented", JBool false);
                            ("hasSeenBanner", JBool false); ("userId", JStr uid)]) in
    trace w' = trace w ++ [EvSetItem ANALYTICS_STORAGE_KEY persisted] /\
    (ls_set_throws w = false ->
     ls_items w' !! ANALYTICS_STORAGE_KEY = Some persisted).
Proof.
  intros Hget Hitem.
  destruct (initialize_first_run_eq w Hget Hitem) as (uid & sid & Huid & E).
  cbn zeta in E. exists uid, sid. eexists _, _.
  split; [exact Huid|]. split; [exact E|].
  split; [reflexivity|]. split; [reflexivity|].
  cbn zeta. cbn [trace ls_items with_settings with_rng_pos]. split.
  - rewrite trace_after_save by reflexivity. reflexivity.
  - intros Hset. rewrite stored_after_save by (try reflexivity; exact Hset).
    reflexivity.
Qed.

(** X2.  A complete record is stored: it has a [userId] and a
    [hasSeenBanner].  [initialize] issues no write and leaves the storage
    as it is; it returns the stored record with a fresh [sessionId], the
    [userId] being the stored one. *)
Theorem initialize_keeps_complete_record w s ps seen :
  ls_get_throws w = false ->
  ls_items w !! ANALYTICS_STORAGE_KEY = Some s ->
  s <> EmptyString ->
  JSON_parse s = Some (JObj ps) ->
  truthy (field (JObj ps) "userId") = true ->
  prop_lookup "hasSeenBanner" ps = Some seen -> is_undefined seen = false ->
  exists sid r w',
    fst (generateSessionId w) = Ret sid /\
    initialize w = (Ret r, w') /\ settings w' = r /\
    r = JObj (prop_store "sessionId" (JStr sid) ps) /\
    field r "userId" = field (JObj ps) "userId" /\
    field r "hasSeenBanner" = seen /\
    trace w' = trace w /\ ls_items w' = ls_items w.
Proof.
  intros Hget Hitem Hs Hparse Huid Hseen Hdef.
  destruct (initialize_complete_record_eq w s ps seen) as (sid & Hsid & E);
    try assumption.
  cbn zeta in E. exists sid. eexists _, _.
  split; [exact Hsid|]. split; [exact E|].
  split; [reflexivity|]. split; [reflexivity|].
  unfold field. run. rewrite !prop_lookup_store_ne by discriminate.
  rewrite Hseen. repeat split; reflexivity.
Qed.

(** X3.  [initialize] never raises, whatever the storage holds or does
    and whatever the stored string parses to: it returns the record it
    holds afterwards, or the default record. *)
Theorem initialize_returns_held_or_default w :
  exists r w',
    initialize w = (Ret r, w') /\ (r = settings w' \/ r = default_settings).
Proof.
  unfold initialize, try_catch, bind.
  destruct (load_settings w) as [[[]|e0] w0]; [|by eexists _, _; split; [|right]].
  destruct (ensure_userId w0) as [[[]|e1] w1]; [|by eexists _, _; split; [|right]].
  destruct (refresh_sessionId w1) as [[[]|e2] w2]; [|by eexists _, _; split; [|right]].
  destruct (backfill_hasSeenBanner w2) as [[[]|e3] w3];
    [|by eexists _, _; split; [|right]].
  unfold get_world, ret. eexists _, _. split; [reflexivity|].
  destruct (truthy (settings w3)); [by left|by right].
Qed.

(** X4.  The [userId] is stable across initialisations.  After a first
    run on a storage that takes the write, a second [initialize] - the
    stored string reading back as the record written - returns the same
    [userId] and writes nothing. *)
Theorem initialize_twice_same_userId w uid :
  ls_get_throws w = false -> ls_set_throws w = false ->
  ls_items w !! ANALYTICS_STORAGE_KEY = None ->
  fst (generateAnonymousId w) = Ret uid ->
  let stored := JObj [("enabled", JBool false); ("hasConsented", JBool false);
                      ("hasSeenBanner", JBool false); ("userId", JStr uid)] in
  JSON_stringify stored <> EmptyString ->
  JSON_parse (JSON_stringify stored) = Some stored ->
  let w1 := snd (initialize w) in
  exists r2 w2,
    initialize w1 = (Ret r2, w2) /\
    field r2 "userId" = JStr uid /\
    field (settings w1) "userId" = JStr uid /\
    trace w2 = trace w1.
Proof.
  intros Hget Hset Hitem Huid stored Hne Hround w1.
  destruct (initialize_first_run_eq w Hget Hitem) as (uid' & sid & Huid' & E).
  rewrite Huid in Huid'. injection Huid' as <-. cbn zeta in E.
  assert (Hw1 : ls_items w1 !! ANALYTICS_STORAGE_KEY = Some (JSON_stringify stored)).
  { subst w1. rewrite E. cbn [snd ls_items with_settings with_rng_pos].
    rewrite stored_after_save by (try reflexivity; exact Hset). reflexivity. }
  assert (Hg1 : ls_get_throws w1 = false).
  { subst w1. rewrite E. cbn [snd ls_get_throws with_settings with_rng_pos].
    by rewrite (proj1 (proj2 (after_save_frame _))). }
  assert (Htruthy : truthy (JStr uid) = true).
  { destruct (generateAnonymousId_spec w) as (id & Eid & _).
    rewrite Eid in Huid. injection Huid as ->.
    exact (generateAnonymousId_truthy _ _ _ Eid). }
  destruct (initialize_complete_record_eq w1 _ _ (JBool false) Hg1 Hw1 Hne Hround)
    as (sid2 & _ & E2); [exact Htruthy|reflexivity..|].
  cbn zeta in E2. eexists _, _. split; [exact E2|].
  split; [reflexivity|]. split; [|reflexivity].
  subst w1. rewrite E. reflexivity.
Qed.

End ConsentProperties.

Section DecisionProperties.
Context `{Runtime}.
Import ConsentManager.

Lemma deleteAllData_world w :
  ls_remove_throws w = false ->
  exists uid sid,
    fst (generateAnonymousId w) = Ret uid /\
    let r := JObj [("enabled", JBool false); ("hasConsented", JBool false);
                   ("hasSeenBanner", JBool false);
                   ("userId", JStr uid); ("sessionId", JStr sid)] in
    deleteAllData w
    = (Ret tt,
       after_save
         (with_settings r
            (with_rng_pos (S (rng_pos w + 31))
               (with_items (delete ANALYTICS_STORAGE_KEY)
                  (emit (EvRemoveItem ANALYTICS_STORAGE_KEY) w))))).
Proof.
  intros Hrm.
  pose (w1 := with_items (delete ANALYTICS_STORAGE_KEY)
                (emit (EvRemoveItem ANALYTICS_STORAGE_KEY) w)).
  assert (E0 : localStorage.removeItem ANALYTICS_STORAGE_KEY w = (Ret tt, w1)).
  { unfold localStorage.removeItem. by rewrite Hrm. }
  destruct (generateAnonymousId_spec w1) as (uid & Eid & _).
  destruct (generateSessionId_eq (with_rng_pos (rng_pos w1 + 31) w1)) as [sid Esid].
  exists uid, sid. split.
  { rewrite (generateAnonymousId_rng w w1 eq_refl eq_refl). by rewrite Eid. }
  cbn zeta. unfold deleteAllData. rewrite (bind_ret _ _ _ _ _ E0).
  erewrite bind_ret; cycle 1.
  { rewrite (bind_ret _ _ _ _ _ Eid), (bind_ret _ _ _ _ _ Esid). reflexivity. }
  save_step. subst w1. reflexivity.
Qed.

(** X5.  No record is held: the flag accessors answer false, and
    [getUserId] and [getSessionId] hand out a freshly generated
    identifier without keeping it - the settings stay empty, nothing is
    written, only the random source has moved - so the next call
    generates another one. *)
Theorem accessors_without_record w :
  settings w = JNull ->
  hasConsented w = (Ret false, w) /\
  hasSeenBanner w = (Ret false, w) /\
  isEnabled w = (Ret false, w) /\
  (exists uid,
     fst (generateAnonymousId w) = Ret uid /\
     getUserId w = (Ret (JStr uid), with_rng_pos (rng_pos w + 31) w)) /\
  (exists sid,
     fst (generateSessionId w) = Ret sid /\
     getSessionId w = (Ret (JStr sid), with_rng_pos (S (rng_pos w)) w)).
Proof.
  intros Hs. unfold hasConsented, hasSeenBanner, isEnabled, flag_accessor.
  run. rewrite Hs. run. do 3 (split; [reflexivity|]). split.
  - destruct (generateAnonymousId_spec w) as (uid & Eid & _). exists uid.
    split; [by rewrite Eid|]. unfold getUserId. run. rewrite Hs. run.
    by rewrite (bind_ret _ _ _ _ _ Eid).
  - destruct (generateSessionId_eq w) as [sid Esid]. exists sid.
    split; [by rewrite Esid|]. unfold getSessionId. run. rewrite Hs. run.
    by rewrite (bind_ret _ _ _ _ _ Esid).
Qed.

(** X8.  Persistence is best effort: when the storage refuses the write,
    [grantConsent] on a held record still returns normally, the record in
    memory carries the decision, and the storage content is unchanged. *)
Theorem grantConsent_survives_write_failure w ps :
  settings w = JObj ps -> ls_set_throws w = true ->
  exists w',
    grantConsent w = (Ret tt, w') /\
    settings w' = JObj (granted ps (now w)) /\
    ls_items w' = ls_items w.
Proof.
  intros Hs Hset.
  rewrite (grantConsent_on_record w w ps);
    [|apply ensure_initialized_held; by rewrite Hs|exact Hs].
  eexists. split; [reflexivity|]. rewrite settings_after_save.
  split; [reflexivity|]. unfold after_save.
  cbn [settings with_settings truthy ls_set_throws]. by rewrite Hset.
Qed.

(** X9.  [grantConsent] on a manager that holds nothing yet, on first
    run: it initialises first, so the record it leaves has the generated
    [userId] next to the decision, and two writes are issued - the one of
    [initialize] and the one of the decision. *)
Theorem grantConsent_initializes_first w :
  settings w = JNull ->
  ls_get_throws w = false ->
  ls_items w !! ANALYTICS_STORAGE_KEY = None ->
  exists uid w' first,
    fst (generateAnonymousId w) = Ret uid /\
    grantConsent w = (Ret tt, w') /\
    field (settings w') "userId" = JStr uid /\
    field (settings w') "enabled" = JBool true /\
    field (settings w') "hasConsented" = JBool true /\
    field (settings w') "hasSeenBanner" = JBool true /\
    field (settings w') "consentDate" = JStr (Date_toISOString (now w)) /\
    trace w' = trace w ++ [EvSetItem ANALYTICS_STORAGE_KEY first;
                           EvSetItem ANALYTICS_STORAGE_KEY
                             (JSON_stringify (settings w'))].
Proof.
  intros Hs Hget Hitem.
  destruct (initialize_first_run_eq w Hget Hitem) as (uid & sid & Huid & E).
  cbn zeta in E.
  assert (Ei : ensure_initialized w = (Ret tt, snd (initialize w))).
  { unfold ensure_initialized. run. rewrite Hs. run.
    rewrite (bind_ret _ _ _ _ _ E). by rewrite E. }
  exists uid. eexists _, _. split; [exact Huid|].
  rewrite (grantConsent_on_record w _ _ Ei) by (rewrite E; reflexivity).
  split; [reflexivity|]. rewrite settings_after_save. cbn [settings with_settings].
  destruct (granted_fields
              [("enabled", JBool false); ("hasConsented", JBool false);
               ("hasSeenBanner", JBool false); ("userId", JStr uid);
               ("sessionId", JStr sid)] (now (snd (initialize w))))
    as (-> & -> & -> & ->).
  split; [reflexivity|]. do 3 (split; [reflexivity|]).
  split.
  { rewrite E. cbn [snd now with_settings with_rng_pos].
    by rewrite (proj1 (after_save_frame _)). }
  rewrite trace_after_save by reflexivity. rewrite E.
  cbn [snd trace settings with_settings with_rng_pos].
  rewrite trace_after_save by reflexivity.
  cbn [trace settings with_settings with_rng_pos].
  rewrite <- app_assoc. reflexivity.
Qed.

(** X10.  [deleteAllData] needs no record to be held.  When the storage
    takes the write, what is stored afterwards is exactly the new record;
    when it refuses the write, nothing is stored under the key any more:
    the old record is erased either way. *)
Theorem deleteAllData_replaces_stored_record w :
  ls_remove_throws w = false ->
  fst (deleteAllData w) = Ret tt /\
  (ls_set_throws w = false ->
   ls_items (snd (deleteAllData w)) !! ANALYTICS_STORAGE_KEY
   = Some (JSON_stringify (settings (snd (deleteAllData w))))) /\
  (ls_set_throws w = true ->
   ls_items (snd (deleteAllData w)) !! ANALYTICS_STORAGE_KEY = None).
Proof.
  intros Hrm. destruct (deleteAllData_world w Hrm) as (uid & sid & _ & E).
  cbn zeta in E. rewrite E. cbn [fst snd]. split; [reflexivity|]. split.
  - intros Hset. rewrite settings_after_save.
    by rewrite stored_after_save.
  - intros Hset. unfold after_save.
    cbn [settings with_settings truthy ls_set_throws with_rng_pos with_items emit].
    rewrite Hset. cbn [ls_items emit with_settings with_rng_pos with_items].
    apply lookup_delete_eq.
Qed.

(** X11.  Erasure holds across a restart.  After [deleteAllData] on a
    storage that takes the calls, [initialize] - the stored string
    reading back as the record written - keeps the new [userId], leaves
    [hasSeenBanner] false, and writes nothing. *)
Theorem initialize_after_deleteAllData w :
  ls_get_throws w = false -> ls_set_throws w = false ->
  ls_remove_throws w = false ->
  let w1 := snd (deleteAllData w) in
  JSON_stringify (settings w1) <> EmptyString ->
  JSON_parse (JSON_stringify (settings w1)) = Some (settings w1) ->
  exists r2 w2,
    initialize w1 = (Ret r2, w2) /\
    field r2 "userId" = field (settings w1) "userId" /\
    field r2 "hasSeenBanner" = JBool false /\
    field r2 "enabled" = JBool false /\
    trace w2 = trace w1.
Proof.
  intros Hget Hset Hrm w1 Hne Hround.
  destruct (deleteAllData_world w Hrm) as (uid & sid & Huid & E). cbn zeta in E.
  assert (Hs1 : settings w1
                = JObj [("enabled", JBool false); ("hasConsented", JBool false);
                        ("hasSeenBanner", JBool false);
                        ("userId", JStr uid); ("sessionId", JStr sid)]).
  { subst w1. rewrite E. cbn [snd]. by rewrite settings_after_save. }
  assert (Hi1 : ls_items w1 !! ANALYTICS_STORAGE_KEY
                = Some (JSON_stringify (settings w1))).
  { subst w1. rewrite E. cbn [snd]. rewrite settings_after_save.
    by rewrite stored_after_save. }
  assert (Hg1 : ls_get_throws w1 = false).
  { subst w1. rewrite E. cbn [snd].
    by rewrite (proj1 (proj2 (after_save_frame _))). }
  assert (Htruthy : truthy (JStr uid) = true).
  { destruct (generateAnonymousId_spec w) as (id & Eid & _).
    rewrite Eid in Huid. injection Huid as ->.
    exact (generateAnonymousId_truthy _ _ _ Eid). }
  rewrite Hs1 in Hround, Hi1, Hne.
  destruct (initialize_complete_record_eq w1 _ _ (JBool false) Hg1 Hi1 Hne Hround)
    as (sid2 & _ & E2); [exact Htruthy|reflexivity..|].
  cbn zeta in E2. eexists _, _. split; [exact E2|]. rewrite Hs1.
  repeat split; reflexivity.
Qed.

(** X12.  A consent once granted stays on record when it is revoked: on
    a held record, [grantConsent] followed by [revokeConsent] leaves
    analytics disabled, the banner seen, and [hasConsented] true. *)
Theorem revoke_after_grant_keeps_history w ps :
  settings w = JObj ps ->
  let w1 := snd (grantConsent w) in
  let w2 := snd (revokeConsent w1) in
  fst (revokeConsent w1) = Ret tt /\
  isEnabled w2 = (Ret false, w2) /\
  hasConsented w2 = (Ret true, w2) /\
  hasSeenBanner w2 = (Ret true, w2).
Proof.
  intros Hs w1 w2.
  assert (E1 : settings w1 = JObj (granted ps (now w))).
  { subst w1. rewrite (grantConsent_on_record w w ps);
      [|apply ensure_initialized_held; by rewrite Hs|exact Hs].
    cbn [snd]. by rewrite settings_after_save. }
  assert (E2 : revokeConsent w1
               = (Ret tt, after_save
                            (with_settings (JObj (revoked (granted ps (now w)) (now w1)))
                               w1))).
  { apply revokeConsent_on_record; [|exact E1].
    apply ensure_initialized_held. by rewrite E1. }
  assert (S2 : settings w2 = JObj (revoked (granted ps (now w)) (now w1))).
  { subst w2. rewrite E2. cbn [snd]. by rewrite settings_after_save. }
  split; [by rewrite E2|].
  destruct (revoked_fields (granted ps (now w)) (now w1)) as (Hen & Hseen & _ & Hcons).
  destruct (granted_fields ps (now w)) as (_ & Hc & _ & _).
  unfold isEnabled, hasConsented, hasSeenBanner, flag_accessor. run.
  rewrite S2, Hen, Hseen, Hcons, Hc. repeat split; reflexivity.
Qed.

End DecisionProperties.

(** ** The anonymous identifier *)

Section UuidFacts.
Import ConsentManager Uuid.

Lemma hex_digit_is_hex v : is_hex (hex_digit v) = true.
Proof.
  destruct v as [|p]; [reflexivity|].
  do 4 (destruct p as [p|p|]; try reflexivity).
Qed.

Lemma hex_digit_variant r : is_variant (hex_digit (N.lor (N.land r 3) 8)) = true.
Proof.
  assert (Hlt : (N.land r 3 < 4)%N).
  { change 3%N with (N.ones 2). rewrite N.land_ones. by apply N.mod_lt. }
  destruct (N.land r 3) as [|[[|p|]|[|p|]|]]; try reflexivity; lia.
Qed.

Lemma replace_xy_shaped template w :
  exists s, fst (replace_xy template w) = Ret s /\ shaped template s = true.
Proof.
  revert w. induction template as [|c rest IH]; intros w.
  - by exists EmptyString.
  - cbn [replace_xy shaped].
    destruct (Ascii.eqb c "x") eqn:Ex; cbn [orb].
    + unfold uuid_char, Math_random. run.
      destruct (replace_xy_spec rest (with_rng_pos (S (rng_pos w)) w)) as (s & E & _).
      destruct (IH (with_rng_pos (S (rng_pos w)) w)) as (s' & E' & Hs).
      rewrite E in E'. injection E' as <-.
      rewrite (bind_ret _ _ _ _ _ E). eexists. split; [reflexivity|].
      cbn [shaped]. rewrite Ex, Hs, hex_digit_is_hex. reflexivity.
    + destruct (Ascii.eqb c "y") eqn:Ey.
      * unfold uuid_char, Math_random. run.
        destruct (replace_xy_spec rest (with_rng_pos (S (rng_pos w)) w)) as (s & E & _).
        destruct (IH (with_rng_pos (S (rng_pos w)) w)) as (s' & E' & Hs).
        rewrite E in E'. injection E' as <-.
        rewrite (bind_ret _ _ _ _ _ E). eexists. split; [reflexivity|].
        cbn [shaped]. rewrite ?Ex, ?Ey, Hs, hex_digit_variant. reflexivity.
      * destruct (replace_xy_spec rest w) as (s & E & _).
        destruct (IH w) as (s' & E' & Hs).
        rewrite E in E'. injection E' as <-.
        rewrite (bind_ret _ _ _ _ _ E). eexists. split; [reflexivity|].
        cbn [shaped]. rewrite ?Ex, ?Ey, Hs, Ascii.eqb_refl. reflexivity.
Qed.

(** X13.  Whatever the random source draws, [generateAnonymousId]
    returns a string of the version-4 UUID shape: 36 characters, hyphens
    after 8, 12, 16 and 20 digits, a [4] leading the third group, one of
    [8 9 a b] leading the fourth, lower-case hex digits elsewhere. *)
Theorem generateAnonymousId_uuid_v4_shape w :
  exists id,
    fst (generateAnonymousId w) = Ret id /\
    String.length id = 36 /\
    shaped "xxxxxxxx-xxxx-4xxx-yxxx-xxxxxxxxxxxx" id = true.
Proof.
  destruct (generateAnonymousId_spec w) as (id & E & Hlen).
  destruct (replace_xy_shaped "xxxxxxxx-xxxx-4xxx-yxxx-xxxxxxxxxxxx" w)
    as (id' & E' & Hshape).
  exists id. split; [by rewrite E|]. split; [exact Hlen|].
  assert (fst (generateAnonymousId w) = Ret id') as Heq by exact E'.
  rewrite E in Heq. injection Heq as ->. exact Hshape.
Qed.

End UuidFacts.

(* ================================================================== *)
(** * WindowPersistenceService: what each call keeps *)
(* ================================================================== *)

Section Frames.
Context `{Runtime}.
Import WindowPersistenceService.

Lemma keeps_ret {A T} (f : World -> T) (a : A) : keeps f (ret a).
Proof. intros w. reflexivity. Qed.

Lemma keeps_throw {A T} (f : World -> T) e : keeps f (@throw A e).
Proof. intros w. reflexivity. Qed.

Lemma keeps_bind {A B T} (f : World -> T) (m : M A) (k : A -> M B) :
  keeps f m -> (forall a, keeps f (k a)) -> keeps f (bind m k).
Proof.
  intros Hm Hk w. unfold bind. specialize (Hm w).
  destruct (m w) as [[a|e] w1]; cbn [snd] in *; [|exact Hm].
  rewrite (Hk a w1). exact Hm.
Qed.

Lemma keeps_try_catch {A T} (f : World -> T) (m : M A) h :
  keeps f m -> (forall e, keeps f (h e)) -> keeps f (try_catch m h).
Proof.
  intros Hm Hh w. unfold try_catch. specialize (Hm w).
  destruct (m w) as [[a|e] w1]; cbn [snd] in *; [exact Hm|].
  rewrite (Hh e w1). exact Hm.
Qed.

Lemma keeps_if {A T} (f : World -> T) (b : bool) (m1 m2 : M A) :
  keeps f m1 -> keeps f m2 -> keeps f (if b then m1 else m2).
Proof. by destruct b. Qed.

Lemma keeps_getItem {T} (f : World -> T) k : keeps f (localStorage.getItem k).
Proof. intros w. unfold localStorage.getItem. by destruct (ls_get_throws w). Qed.

Lemma keeps_isEnabled {T} (f : World -> T) : keeps f isEnabled.
Proof.
  apply keeps_bind; [apply keeps_getItem|]. intros a. apply keeps_ret.
Qed.

Lemma keeps_parse_json {T} (f : World -> T) s : keeps f (parse_json s).
Proof. unfold parse_json. destruct (JSON_parse s); [apply keeps_ret|apply keeps_throw]. Qed.

Lemma keeps_read_prop {T} (f : World -> T) v k : keeps f (read_prop v k).
Proof. unfold read_prop. destruct (get_prop v k); [apply keeps_ret|apply keeps_throw]. Qed.

Lemma keeps_getCurrentWindow {T} (f : World -> T) : keeps f getCurrentWindow.
Proof. intros w. unfold getCurrentWindow. by destruct (tauri_missing w). Qed.

End Frames.

(** ** Restoring and reading the stored size *)

Section RestoreFacts.
Context `{Runtime}.
Import WindowPersistenceService.

(** [restoreWindowSize] once the flag has been read as set and the size
    key holds a non-empty string. *)
Lemma restoreWindowSize_stored w s :
  isEnabled w = (Ret true, w) ->
  ls_items w !! WINDOW_SIZE_KEY = Some s -> s <> EmptyString ->
  restoreWindowSize w
  = match JSON_parse s with
    | None => (Ret false, w)
    | Some v =>
        match get_prop v "width", get_prop v "height" with
        | Some width, Some height =>
            if negb (truthy width) || negb (truthy height)
               || js_lt width 400 || js_lt height 300
               || js_gt width 4000 || js_gt height 3000
            then (Ret false, w)
            else try_catch (getCurrentWindow ;> setSize width height ;> ret true)
                   (fun _ => ret false) w
        | _, _ => (Ret false, w)
        end
    end.
Proof.
  intros Hen Hitem Hs. unfold restoreWindowSize.
  rewrite (bind_ret _ _ _ _ _ Hen). apply isEnabled_inv in Hen as (_ & Hget & _).
  cbn [negb]. unfold try_catch, bind at 1, localStorage.getItem. rewrite Hget, Hitem.
  cbn [stored_truthy]. destruct (String.eqb s EmptyString) eqn:E.
  { apply String.eqb_eq in E. contradiction. }
  cbn [negb default from_option id]. unfold bind at 1, parse_json.
  destruct (JSON_parse s) as [v|]; [|reflexivity]. unfold ret at 1.
  unfold bind at 1, read_prop.
  destruct (get_prop v "width") as [width|] eqn:Ew; [|reflexivity].
  assert (exists height, get_prop v "height" = Some height) as [height Eh].
  { destruct v; try discriminate; eexists; reflexivity. }
  rewrite Eh. unfold ret at 1. unfold bind at 1. unfold ret at 1.
  destruct (_ || _); reflexivity.
Qed.

Lemma isEnabled_cases w :
  ls_get_throws w = false ->
  isEnabled w = (Ret true, w) \/ isEnabled w = (Ret false, w).
Proof.
  intros Hget. rewrite (isEnabled_eq w Hget).
  destruct (match ls_items w !! PERSISTENCE_ENABLED_KEY with
            | Some s => String.eqb s "true" | None => true end); [by left|by right].
Qed.

Lemma restoreWindowSize_absent w :
  isEnabled w = (Ret true, w) ->
  stored_truthy (ls_items w !! WINDOW_SIZE_KEY) = false ->
  restoreWindowSize w = (Ret false, w).
Proof.
  intros Hen Hitem. unfold restoreWindowSize.
  rewrite (bind_ret _ _ _ _ _ Hen). apply isEnabled_inv in Hen as (_ & Hget & _).
  cbn [negb]. unfold try_catch, bind, localStorage.getItem. rewrite Hget, Hitem.
  reflexivity.
Qed.

Lemma restoreWindowSize_disabled w :
  isEnabled w = (Ret false, w) -> restoreWindowSize w = (Ret false, w).
Proof. intros Hen. unfold restoreWindowSize. by rewrite (bind_ret _ _ _ _ _ Hen). Qed.

Lemma stored_truthy_Some o :
  stored_truthy o = true -> exists s, o = Some s /\ s <> EmptyString.
Proof.
  destruct o as [s|]; [|discriminate]. cbn [stored_truthy].
  intros Hs. exists s. split; [reflexivity|]. intros ->. discriminate.
Qed.


End RestoreFacts.

Section RestoreProperties.
Context `{Runtime}.
Import WindowPersistenceService.

(** X14.  Nothing to restore.  [restoreWindowSize] returns false and does
    nothing at all - no resize call, the world as it was - when
    persistence is disabled, when no size is stored or the stored string
    is empty, when the stored string is not JSON, and when what it parses
    to has no truthy [width] or no truthy [height] ([null], a number,
    an empty object, a width of 0). *)
Theorem restoreWindowSize_nothing_to_restore w :
  ls_get_throws w = false ->
  isEnabled w = (Ret false, w)
  \/ stored_truthy (ls_items w !! WINDOW_SIZE_KEY) = false
  \/ (exists s, ls_items w !! WINDOW_SIZE_KEY = Some s /\
        match JSON_parse s with
        | None => True
        | Some v => truthy (field v "width") = false \/
                    truthy (field v "height") = false
        end) ->
  restoreWindowSize w = (Ret false, w).
Proof.
  intros Hget Hcase.
  destruct (isEnabled_cases w Hget) as [Hen|Hen].
  2:{ by apply restoreWindowSize_disabled. }
  destruct Hcase as [Hdis|[Habs|(s & Hitem & Hbad)]]; [congruence| |].
  { by apply restoreWindowSize_absent. }
  destruct (String.eqb_spec s EmptyString) as [->|Hs].
  { apply restoreWindowSize_absent; [exact Hen|]. by rewrite Hitem. }
  rewrite (restoreWindowSize_stored w s Hen Hitem Hs).
  destruct (JSON_parse s) as [v|]; [|reflexivity].
  unfold field in Hbad.
  destruct (get_prop v "width") as [width|]; [|reflexivity].
  destruct (get_prop v "height") as [height|]; [|reflexivity].
  cbn [default from_option id] in Hbad.
  destruct Hbad as [-> | ->]; cbn [negb orb]; [reflexivity|].
  rewrite orb_true_r. reflexivity.
Qed.


(** X16.  A stored size within bounds and a platform that fails:
    [restoreWindowSize] returns false and the window keeps its size.
    When the window handle cannot be had, no resize call is issued; when
    the call is rejected, it has been issued once. *)
Theorem restoreWindowSize_platform_failure w s v width height :
  isEnabled w = (Ret true, w) ->
  ls_items w !! WINDOW_SIZE_KEY = Some s -> s <> EmptyString ->
  JSON_parse s = Some v ->
  get_prop v "width" = Some (JNum width) ->
  get_prop v "height" = Some (JNum height) ->
  in_bounds width height = true ->
  (tauri_missing w = true -> restoreWindowSize w = (Ret false, w)) /\
  (tauri_missing w = false -> ipc_fails w = true ->
   restoreWindowSize w
   = (Ret false, emit (EvSetSize (JNum width) (JNum height)) w)).
Proof.
  intros Hen Hitem Hs Hparse Hw Hh Hin.
  rewrite (restoreWindowSize_record w s v width height) by assumption.
  rewrite Hin. unfold try_catch, bind, getCurrentWindow, setSize, ret.
  split.
  - intros ->. reflexivity.
  - intros -> ->. reflexivity.
Qed.

(** X17.  [getSavedWindowSize] only reads.  When the storage can be read
    it returns and leaves the world as it was; what it returns is [null],
    or the value the stored string parses to, persistence being
    enabled. *)
Theorem getSavedWindowSize_only_reads w :
  ls_get_throws w = false ->
  exists v,
    getSavedWindowSize w = (Ret v, w) /\
    (v <> JNull ->
     isEnabled w = (Ret true, w) /\
     exists s, ls_items w !! WINDOW_SIZE_KEY = Some s /\ s <> EmptyString /\
               JSON_parse s = Some v).
Proof.
  intros Hget.
  destruct (isEnabled_cases w Hget) as [Hen|Hen].
  2:{ exists JNull. rewrite getSavedWindowSize_disabled by exact Hen.
      split; [reflexivity|]. intros Hv. contradiction. }
  unfold getSavedWindowSize. rewrite (bind_ret _ _ _ _ _ Hen). cbn [negb].
  unfold try_catch, bind, localStorage.getItem. rewrite Hget.
  destruct (stored_truthy (ls_items w !! WINDOW_SIZE_KEY)) eqn:Hst; cbn [negb].
  2:{ exists JNull. split; [reflexivity|]. intros Hv. contradiction. }
  apply stored_truthy_Some in Hst as (s & Hitem & Hs). rewrite Hitem.
  cbn [default from_option id]. unfold parse_json.
  destruct (JSON_parse s) as [v|] eqn:Hparse.
  - exists v. split; [reflexivity|]. intros _. split; [exact Hen|].
    exists s. repeat split; assumption.
  - exists JNull. split; [reflexivity|]. intros Hv. contradiction.
Qed.

End RestoreProperties.

(** ** The flag *)

Section FlagFacts.
Context `{Runtime}.
Import WindowPersistenceService.

(** [isEnabled] depends on the flag and on nothing else of the storage. *)
Lemma isEnabled_flag w w' b :
  isEnabled w = (Ret b, w) ->
  ls_items w' !! PERSISTENCE_ENABLED_KEY = ls_items w !! PERSISTENCE_ENABLED_KEY ->
  ls_get_throws w' = ls_get_throws w ->
  isEnabled w' = (Ret b, w').
Proof.
  intros (_ & Hget & ->)%isEnabled_inv Hitems Hthrows.
  rewrite isEnabled_eq by congruence. by rewrite Hitems.
Qed.

Lemma isEnabled_throws w :
  ls_get_throws w = true -> isEnabled w = (Throw StorageError, w).
Proof.
  intros Hget. unfold isEnabled, bind, localStorage.getItem. by rewrite Hget.
Qed.

Lemma page_eta p : with_world (page_world p) p = p.
Proof. by destruct p. Qed.

Lemma setEnabled_true_eq w :
  ls_set_throws w = false ->
  setEnabled true w
  = (Ret tt, with_items (insert PERSISTENCE_ENABLED_KEY "true")
               (emit (EvSetItem PERSISTENCE_ENABLED_KEY "true") w)).
Proof.
  intros Hset. unfold setEnabled, bind, localStorage.setItem. rewrite Hset.
  reflexivity.
Qed.

End FlagFacts.

Section FlagProperties.
Context `{Runtime}.
Import WindowPersistenceService.

(** X18.  The flag is read outside every [try].  When the storage cannot
    be read, [isEnabled] raises, and with it [getSavedWindowSize],
    [restoreWindowSize], [saveWindowSize] and [initializeResizeListener]:
    the handlers of the first two, which would have answered [null] and
    false, are never reached.  Nothing is changed, no timer is set and
    no listener registered. *)
Theorem unreadable_flag_raises_everywhere w :
  ls_get_throws w = true ->
  isEnabled w = (Throw StorageError, w) /\
  getSavedWindowSize w = (Throw StorageError, w) /\
  restoreWindowSize w = (Throw StorageError, w) /\
  saveWindowSize w = (Throw StorageError, w) /\
  forall p, page_world p = w ->
            initializeResizeListener p = (Throw StorageError, p).
Proof.
  intros Hget. pose proof (isEnabled_throws w Hget) as E.
  split; [exact E|].
  unfold getSavedWindowSize, restoreWindowSize, saveWindowSize.
  rewrite !(bind_throw _ _ _ _ _ E). do 3 (split; [reflexivity|]).
  intros p <-. unfold initializeResizeListener. rewrite E.
  by rewrite page_eta.
Qed.

(** X19.  The flag reads back as written.  On a storage that takes the
    calls, [isEnabled] after [setEnabled b] answers [b].  Enabling issues
    the one write of the flag and leaves every other key, the stored
    size among them, as it was. *)
Theorem setEnabled_then_isEnabled w b :
  ls_get_throws w = false -> ls_set_throws w = false ->
  ls_remove_throws w = false ->
  exists w',
    setEnabled b w = (Ret tt, w') /\
    isEnabled w' = (Ret b, w') /\
    (b = true ->
     trace w' = trace w ++ [EvSetItem PERSISTENCE_ENABLED_KEY "true"] /\
     forall k, k <> PERSISTENCE_ENABLED_KEY -> ls_items w' !! k = ls_items w !! k).
Proof.
  intros Hget Hset Hrm. destruct b.
  - rewrite setEnabled_true_eq by exact Hset. eexists. split; [reflexivity|].
    split.
    + rewrite isEnabled_eq by exact Hget.
      cbn [ls_items with_items emit]. by rewrite lookup_insert_eq.
    + intros _. split; [reflexivity|]. intros k Hk.
      cbn [ls_items with_items emit]. by rewrite lookup_insert_ne.
  - rewrite setEnabled_false_eq by assumption. eexists. split; [reflexivity|].
    split; [|discriminate].
    rewrite isEnabled_eq by exact Hget. cbn [ls_items with_items emit].
    rewrite lookup_delete_ne by discriminate. by rewrite lookup_insert_eq.
Qed.

(** X20.  Disabling is not atomic.  When the storage refuses the write of
    the flag, [setEnabled false] raises before it clears anything: the
    storage is as it was.  When it takes the write and refuses the
    removal, [setEnabled false] raises with the flag already stored as
    false and the size still stored. *)
Theorem setEnabled_false_failure_keeps_size w :
  ls_set_throws w = true \/ ls_remove_throws w = true ->
  exists w',
    setEnabled false w = (Throw StorageError, w') /\
    ls_items w' !! WINDOW_SIZE_KEY = ls_items w !! WINDOW_SIZE_KEY /\
    (ls_set_throws w = true ->
     ls_items w' = ls_items w /\
     trace w' = trace w ++ [EvSetItem PERSISTENCE_ENABLED_KEY "false"]) /\
    (ls_set_throws w = false ->
     ls_items w' !! PERSISTENCE_ENABLED_KEY = Some "false").
Proof.
  intros Hcase. unfold setEnabled, clearWindowSize, bind, when,
    localStorage.setItem, localStorage.removeItem. cbn [negb].
  destruct (ls_set_throws w) eqn:Hset.
  - eexists. split; [reflexivity|]. split; [reflexivity|].
    split; [|discriminate]. intros _. split; reflexivity.
  - destruct Hcase as [Hc|Hrm]; [discriminate|].
    cbn [ls_remove_throws with_items emit]. rewrite Hrm.
    eexists. split; [reflexivity|]. cbn [ls_items with_items emit].
    split; [by rewrite lookup_insert_ne|]. split; [discriminate|].
    intros _. by rewrite lookup_insert_eq.
Qed.

(** X21.  [clearWindowSize] on a storage that takes the removal: the size
    key is gone and every other key is as it was, so [isEnabled] answers
    as before; when the storage can be read, [getSavedWindowSize] then
    answers [null] and [restoreWindowSize] false, and neither does
    anything. *)
Theorem clearWindowSize_forgets_size w :
  ls_remove_throws w = false ->
  exists w',
    clearWindowSize w = (Ret tt, w') /\
    ls_items w' !! WINDOW_SIZE_KEY = None /\
    (forall k, k <> WINDOW_SIZE_KEY -> ls_items w' !! k = ls_items w !! k) /\
    trace w' = trace w ++ [EvRemoveItem WINDOW_SIZE_KEY] /\
    (ls_get_throws w = false ->
     fst (isEnabled w') = fst (isEnabled w) /\
     getSavedWindowSize w' = (Ret JNull, w') /\
     restoreWindowSize w' = (Ret false, w')).
Proof.
  intros Hrm. unfold clearWindowSize, localStorage.removeItem. rewrite Hrm.
  eexists. split; [reflexivity|]. cbn [ls_items with_items emit trace].
  split; [apply lookup_delete_eq|].
  split; [intros k Hk; by rewrite lookup_delete_ne|].
  split; [reflexivity|]. intros Hget.
  set (w' := with_items _ _).
  assert (Hget' : ls_get_throws w' = false) by exact Hget.
  assert (Habs : stored_truthy (ls_items w' !! WINDOW_SIZE_KEY) = false).
  { subst w'. cbn [ls_items with_items emit]. by rewrite lookup_delete_eq. }
  split.
  { rewrite (isEnabled_eq w Hget), (isEnabled_eq w' Hget'). subst w'.
    cbn [ls_items with_items emit fst]. by rewrite lookup_delete_ne. }
  destruct (isEnabled_cases w' Hget') as [Hen|Hen].
  - split; [|by apply restoreWindowSize_absent].
    unfold getSavedWindowSize. rewrite (bind_ret _ _ _ _ _ Hen). cbn [negb].
    unfold try_catch, bind, localStorage.getItem. rewrite Hget', Habs.
    reflexivity.
  - split; [by apply getSavedWindowSize_disabled|by apply restoreWindowSize_disabled].
Qed.

End FlagProperties.

(** ** One save pending at most *)

Section TimerFrames.
Context `{Runtime}.
Import WindowPersistenceService.

Lemma keeps_setItem {T} (f : World -> T) k v :
  (forall g w, f (with_items g w) = f w) -> (forall e w, f (emit e w) = f w) ->
  keeps f (localStorage.setItem k v).
Proof.
  intros Hi He w. unfold localStorage.setItem.
  destruct (ls_set_throws w); cbn [snd]; by rewrite ?Hi, He.
Qed.

Lemma keeps_removeItem {T} (f : World -> T) k :
  (forall g w, f (with_items g w) = f w) -> (forall e w, f (emit e w) = f w) ->
  keeps f (localStorage.removeItem k).
Proof.
  intros Hi He w. unfold localStorage.removeItem.
  destruct (ls_remove_throws w); cbn [snd]; by rewrite ?Hi, He.
Qed.

Lemma keeps_setSize {T} (f : World -> T) width height :
  (forall sz w, f (with_win_size sz w) = f w) -> (forall e w, f (emit e w) = f w) ->
  keeps f (setSize width height).
Proof.
  intros Hs He w. unfold setSize.
  destruct (ipc_fails w), width, height; cbn [snd]; by rewrite ?Hs, He.
Qed.

Lemma keeps_setEnabled {T} (f : World -> T) b :
  (forall g w, f (with_items g w) = f w) -> (forall e w, f (emit e w) = f w) ->
  keeps f (setEnabled b).
Proof.
  intros Hi He. apply keeps_bind; [by apply keeps_setItem|]. intros _.
  unfold when. apply keeps_if; [by apply keeps_removeItem|apply keeps_ret].
Qed.

Lemma keeps_restoreWindowSize {T} (f : World -> T) :
  (forall sz w, f (with_win_size sz w) = f w) -> (forall e w, f (emit e w) = f w) ->
  keeps f restoreWindowSize.
Proof.
  intros Hs He. apply keeps_bind; [apply keeps_isEnabled|]. intros en.
  apply keeps_if; [apply keeps_ret|].
  apply keeps_try_catch; [|intros _; apply keeps_ret].
  apply keeps_bind; [apply keeps_getItem|]. intros savedData.
  apply keeps_if; [apply keeps_ret|].
  apply keeps_bind; [apply keeps_parse_json|]. intros windowSize.
  apply keeps_bind; [apply keeps_read_prop|]. intros width.
  apply keeps_bind; [apply keeps_read_prop|]. intros height.
  apply keeps_if; [apply keeps_ret|].
  apply keeps_bind; [apply keeps_getCurrentWindow|]. intros _.
  apply keeps_bind; [by apply keeps_setSize|]. intros _. apply keeps_ret.
Qed.

Lemma keeps_getSavedWindowSize {T} (f : World -> T) : keeps f getSavedWindowSize.
Proof.
  apply keeps_bind; [apply keeps_isEnabled|]. intros en.
  apply keeps_if; [apply keeps_ret|].
  apply keeps_try_catch; [|intros _; apply keeps_ret].
  apply keeps_bind; [apply keeps_getItem|]. intros savedData.
  apply keeps_if; [apply keeps_ret|apply keeps_parse_json].
Qed.

Lemma no_orphans_ext w w' :
  timers w' = timers w -> saveTimeout w' = saveTimeout w ->
  no_orphans w -> no_orphans w'.
Proof. unfold no_orphans. by intros -> ->. Qed.

Lemma fire_due_length fuel target : forall w,
  (length (timers (fire_due fuel target w)) <= length (timers w))%nat.
Proof.
  induction fuel as [|fuel IH]; intros w; [reflexivity|]. cbn [fire_due].
  destruct (earliest (timers w)) as [[id due]|]; [|reflexivity].
  destruct (due <=? target)%Z; [|reflexivity].
  etransitivity; [apply IH|].
  destruct (deferred_save_timers
    (with_now (Z.max (now w) due)
       (with_timers (drop_timer id (timers w)) (next_timer w) w))) as (-> & _).
  cbn [timers with_now with_timers]. apply List.filter_length_le.
Qed.

Lemma saveWindowSize_length w :
  no_orphans w -> (length (timers w) <= 1)%nat ->
  (length (timers (snd (saveWindowSize w))) <= 1)%nat.
Proof.
  intros Horph Hlen. destruct (isEnabled w) as [[[]|e] w'] eqn:Hen.
  - apply isEnabled_inv in Hen as Hw. destruct Hw as (-> & _).
    rewrite saveWindowSize_eq by done. reflexivity.
  - apply isEnabled_inv in Hen as Hw. destruct Hw as (-> & _).
    by rewrite saveWindowSize_disabled.
  - unfold saveWindowSize. rewrite (bind_throw _ _ _ _ _ Hen). cbn [snd].
    pose proof (keeps_isEnabled timers w) as Hk. rewrite Hen in Hk.
    cbn [snd] in Hk. by rewrite Hk.
Qed.

(** At most one save is pending, and [saveTimeout] names it. *)
Lemma one_pending_call {A} (m : M A) w :
  keeps (fun w => (timers w, saveTimeout w)) m ->
  no_orphans w /\ (length (timers w) <= 1)%nat ->
  no_orphans (snd (m w)) /\ (length (timers (snd (m w))) <= 1)%nat.
Proof.
  intros Hk [Horph Hlen]. specialize (Hk w). injection Hk as Ht Hs.
  split; [by apply (no_orphans_ext w)|by rewrite Ht].
Qed.

Lemma one_pending_handleResize w :
  no_orphans w /\ (length (timers w) <= 1)%nat ->
  no_orphans (handleResize w) /\ (length (timers (handleResize w)) <= 1)%nat.
Proof.
  intros [Horph Hlen]. split; [by apply no_orphans_saveWindowSize|].
  by apply saveWindowSize_length.
Qed.

Lemma one_pending_act p a :
  no_orphans (page_world p) /\ (length (timers (page_world p)) <= 1)%nat ->
  no_orphans (page_world (act p a)) /\
  (length (timers (page_world (act p a))) <= 1)%nat.
Proof.
  intros Hinv. destruct a as [b| | | | | |c|size|ms]; cbn [act call page_world with_world].
  - apply one_pending_call; [|exact Hinv]. by apply keeps_setEnabled.
  - by apply one_pending_handleResize.
  - apply one_pending_call; [|exact Hinv]. by apply keeps_restoreWindowSize.
  - apply one_pending_call; [|exact Hinv]. apply keeps_getSavedWindowSize.
  - apply one_pending_call; [|exact Hinv]. by apply keeps_removeItem.
  - unfold initializeResizeListener.
    pose proof (keeps_isEnabled (fun w => w) (page_world p)) as Hk.
    destruct (isEnabled (page_world p)) as [[[]|e] w']; cbn [snd] in Hk; subst w';
      exact Hinv.
  - destruct c as [|id]; [exact Hinv|]. cbn [run_cleanup page_world].
    destruct Hinv as [Horph Hlen]. unfold no_orphans in *.
    destruct (saveTimeout (page_world p)) as [t|] eqn:Es.
    + cbn [clearTimeout snd saveTimeout timers with_saveTimeout with_timers].
      rewrite Horph. split; [reflexivity|cbn; lia].
    + rewrite Es. by split.
  - unfold dispatch_resize. cbn [page_world with_world].
    assert (Hres : no_orphans (resize size (page_world p)) /\
                   (length (timers (resize size (page_world p))) <= 1)%nat)
      by exact Hinv.
    revert Hres. generalize (resize size (page_world p)).
    induction (listeners p) as [|l ls IH]; intros w Hw; [exact Hw|].
    cbn [fold_left]. apply IH. by apply one_pending_handleResize.
  - destruct Hinv as [Horph Hlen]. split; [by apply no_orphans_advance|].
    unfold advance. cbn [timers with_now].
    etransitivity; [apply fire_due_length|exact Hlen].
Qed.

End TimerFrames.

Section OnePending.
Context `{Runtime}.
Import WindowPersistenceService.

(** X22.  At most one save is ever pending.  From a page where at most
    one timer is pending and [saveTimeout] names it - a fresh page, for
    one - every history of calls to the service, of cleanups, resize
    events and waits, whatever the storage and the platform do, leads to
    such a page again. *)
Theorem at_most_one_save_pending actions p :
  no_orphans (page_world p) -> (length (timers (page_world p)) <= 1)%nat ->
  no_orphans (page_world (history actions p)) /\
  (length (timers (page_world (history actions p))) <= 1)%nat.
Proof.
  intros Horph Hlen. assert (Hinv := conj Horph Hlen). clear Horph Hlen.
  revert p Hinv. unfold history.
  induction actions as [|a actions IH]; intros p Hinv; [exact Hinv|].
  cbn [fold_left]. apply IH. by apply one_pending_act.
Qed.

End OnePending.

(** ** The deferred save *)

Section DeferredFacts.
Context `{Runtime}.
Import WindowPersistenceService.

(** One call and a wait of 500ms or more: the timer of the call fires
    500ms after the call. *)
Lemma saveWindowSize_then_wait w ms :
  isEnabled w = (Ret true, w) -> no_orphans w -> (500 <= ms)%N ->
  advance ms (snd (saveWindowSize w))
  = with_now (now w + Z.of_N ms)
      (snd (deferred_save
              (with_now (now w + 500)
                 (with_timers [] (Pos.succ (next_timer w))
                    (with_saveTimeout (Some (next_timer w)) w))))).
Proof.
  intros Hen Horph Hms. rewrite saveWindowSize_eq by assumption. cbn [snd].
  erewrite advance_fires;
    [|reflexivity|cbn [now with_saveTimeout with_timers]; lia..].
  reflexivity.
Qed.

Lemma deferred_save_fails w :
  tauri_missing w = true \/ ipc_fails w = true \/ ls_set_throws w = true ->
  exists w',
    deferred_save w = (Ret tt, w') /\ ls_items w' = ls_items w /\
    (tauri_missing w = true \/ ipc_fails w = true -> w' = w).
Proof.
  intros Hcase.
  unfold deferred_save, try_catch, bind, getCurrentWindow, innerSize, Date_now,
    localStorage.setItem, ret.
  destruct (tauri_missing w) eqn:Ht; [by exists w|].
  destruct (ipc_fails w) eqn:Hi; [by exists w|].
  destruct Hcase as [Hc|[Hc|Hs]]; [discriminate..|]. rewrite Hs.
  eexists. split; [reflexivity|]. split; [reflexivity|].
  intros [Hc|Hc]; discriminate.
Qed.

Lemma size_writes_snoc events v :
  size_writes (events ++ [EvSetItem WINDOW_SIZE_KEY v]) = size_writes events ++ [v].
Proof. unfold size_writes. rewrite omap_app. reflexivity. Qed.

Lemma advance_idle w ms :
  timers w = [] -> advance ms w = with_now (now w + Z.of_N ms) w.
Proof. intros Ht. unfold advance. rewrite Ht. reflexivity. Qed.

End DeferredFacts.

Section DeferredProperties.
Context `{Runtime}.
Import WindowPersistenceService.

(** X23.  What is saved is what is restored.  Persistence is enabled,
    the storage and the platform answer, and the record the deferred
    save writes reads back from its JSON text.  One call to
    [saveWindowSize] and 500ms or more later - the window having been
    given another size meanwhile, as at the next start - the stored
    record is the size the window had, and [restoreWindowSize] gives the
    window that size again and returns true when it lies within
    [400, 4000] x [300, 3000].  The save does not look at the bounds: a
    size outside them is stored all the same, and [restoreWindowSize]
    then returns false and leaves the window alone. *)
Theorem saved_size_is_restored w ms other :
  isEnabled w = (Ret true, w) ->
  ls_set_throws w = false -> tauri_missing w = false -> ipc_fails w = false ->
  no_orphans w -> (500 <= ms)%N ->
  let record := window_size_record (win_size w) (now w + 500) in
  JSON_stringify record <> EmptyString ->
  JSON_parse (JSON_stringify record) = Some record ->
  let w2 := resize other (advance ms (snd (saveWindowSize w))) in
  getSavedWindowSize w2 = (Ret record, w2) /\
  if in_bounds (fst (win_size w)) (snd (win_size w)) then
    exists w3, restoreWindowSize w2 = (Ret true, w3) /\ win_size w3 = win_size w
  else restoreWindowSize w2 = (Ret false, w2).
Proof.
  intros Hen Hset Htauri Hipc Horph Hms record Hne Hround w2.
  apply isEnabled_inv in Hen as Hen'. destruct Hen' as (_ & Hget & _).
  assert (Hw2 : w2 = resize other
            (with_now (now w + Z.of_N ms)
               (with_items (insert WINDOW_SIZE_KEY (JSON_stringify record))
                  (emit (EvSetItem WINDOW_SIZE_KEY (JSON_stringify record))
                     (with_now (now w + 500)
                        (with_timers [] (Pos.succ (next_timer w))
                           (with_saveTimeout (Some (next_timer w)) w))))))).
  { subst w2. rewrite saveWindowSize_then_wait by assumption.
    rewrite deferred_save_eq by assumption. reflexivity. }
  assert (Hitem : ls_items w2 !! WINDOW_SIZE_KEY = Some (JSON_stringify record)).
  { rewrite Hw2. cbn [ls_items resize with_win_size with_now with_items].
    apply lookup_insert_eq. }
  assert (Hen2 : isEnabled w2 = (Ret true, w2)).
  { apply (isEnabled_flag w); [exact Hen| |by rewrite Hw2].
    rewrite Hw2.
    cbn [ls_items resize with_win_size with_now with_items emit with_timers
         with_saveTimeout].
    by rewrite lookup_insert_ne. }
  assert (Hget2 : ls_get_throws w2 = false) by (by rewrite Hw2).
  split.
  { unfold getSavedWindowSize. rewrite (bind_ret _ _ _ _ _ Hen2). cbn [negb].
    unfold try_catch, bind, localStorage.getItem. rewrite Hget2, Hitem.
    cbn [stored_truthy]. destruct (String.eqb_spec (JSON_stringify record) EmptyString);
      [contradiction|].
    cbn [negb default from_option id]. unfold parse_json. by rewrite Hround. }
  rewrite (restoreWindowSize_record w2 (JSON_stringify record) record
             (fst (win_size w)) (snd (win_size w)) Hen2 Hitem Hne Hround)
    by reflexivity.
  destruct (in_bounds _ _); [|reflexivity].
  rewrite restoreWindowSize_platform_ok by (by rewrite Hw2).
  eexists. split; [reflexivity|]. cbn [win_size with_win_size].
  by destruct (win_size w).
Qed.


(** X25.  A deferred save that fails is dropped.  When the timer of a
    call fires and the window handle cannot be had, the size cannot be
    read or the storage refuses the write, the storage content is what
    it was, no timer is pending and nothing is retried; unless it is the
    storage that refuses, not even a write is issued. *)
Theorem failed_deferred_save_is_dropped w ms :
  isEnabled w = (Ret true, w) -> no_orphans w -> (500 <= ms)%N ->
  tauri_missing w = true \/ ipc_fails w = true \/ ls_set_throws w = true ->
  let w' := advance ms (snd (saveWindowSize w)) in
  ls_items w' = ls_items w /\ timers w' = [] /\
  (tauri_missing w = true \/ ipc_fails w = true -> trace w' = trace w) /\
  forall ms', ls_items (advance ms' w') = ls_items w /\
              trace (advance ms' w') = trace w'.
Proof.
  intros Hen Horph Hms Hcase. cbn zeta.
  rewrite saveWindowSize_then_wait by assumption.
  match goal with |- context [deferred_save ?W] => set (w1 := W) end.
  destruct (deferred_save_fails w1 Hcase) as (w1' & E & Hitems & Hsame).
  destruct (deferred_save_timers w1) as (Ht & _).
  rewrite E in *. cbn [snd] in *.
  cbn [ls_items timers trace with_now].
  split; [by rewrite Hitems|]. split; [by rewrite Ht|]. split.
  - intros Hplat. by rewrite (Hsame Hplat).
  - intros ms'. rewrite advance_idle by (cbn [timers with_now]; by rewrite Ht).
    cbn [ls_items trace with_now]. by rewrite Hitems.
Qed.

End DeferredProperties.

(** ** The resize listener *)

Section ListenerFacts.
Context `{Runtime}.
Import WindowPersistenceService.

Lemma saveWindowSize_armed w id next t size :
  isEnabled w = (Ret true, w) ->
  saveWindowSize (armed id next t size w)
  = (Ret tt, armed next (Pos.succ next) t size w).
Proof.
  intros Hen. rewrite saveWindowSize_eq; cycle 1.
  { eapply isEnabled_frame; [exact Hen|reflexivity..]. }
  { unfold no_orphans, armed. run. unfold drop_timer. cbn [List.filter fst].
    by rewrite Pos.eqb_refl. }
  open_world w. world_eq.
Qed.

(** However many listeners run on one event, one timer is pending
    afterwards, due 500ms after the event. *)
Lemma listeners_armed (ls : list positive) w :
  isEnabled w = (Ret true, w) -> no_orphans w -> ls <> [] ->
  exists id next,
    fold_left (fun w _ => handleResize w) ls w
    = armed id next (now w) (win_size w) w.
Proof.
  intros Hen Horph Hls. destruct ls as [|l ls]; [done|]. cbn [fold_left].
  unfold handleResize at 2. rewrite first_call by assumption. cbn [snd].
  clear Hls. generalize (next_timer w) (Pos.succ (next_timer w)).
  induction ls as [|l' ls IH]; intros id next; [by exists id, next|].
  cbn [fold_left]. unfold handleResize at 2.
  rewrite saveWindowSize_armed by exact Hen. cbn [snd]. apply IH.
Qed.


End ListenerFacts.

Section ListenerProperties.
Context `{Runtime}.
Import WindowPersistenceService.

(** X26.  The listener is decided once.  When persistence is disabled at
    the time of the call, [initializeResizeListener] registers nothing
    and hands back a cleanup that does nothing; a page without listeners
    then stays deaf to resize events even after persistence has been
    enabled: no timer is set. *)
Theorem initializeResizeListener_disabled_stays_deaf p :
  isEnabled (page_world p) = (Ret false, page_world p) ->
  exists c,
    initializeResizeListener p = (Ret c, p) /\
    (forall q, run_cleanup c q = q) /\
    (listeners p = [] ->
     forall size,
       timers (page_world (dispatch_resize size (call (setEnabled true) p)))
       = timers (page_world p)).
Proof.
  intros Hen. exists NoCleanup. split.
  { unfold initializeResizeListener. rewrite Hen. by rewrite page_eta. }
  split; [reflexivity|]. intros Hls size.
  unfold dispatch_resize, call. cbn [page_world with_world listeners].
  rewrite Hls. cbn [fold_left resize timers with_win_size].
  apply (keeps_setEnabled timers true); reflexivity.
Qed.

(** X27.  A resize event is saved.  Persistence is enabled and the
    storage and the platform answer.  [initializeResizeListener]
    registers a listener; a resize event then leaves exactly one timer
    pending, however many listeners were registered before, and 500ms
    or more later the size the window was given is what is stored. *)
Theorem resize_event_is_saved p size ms :
  let w := page_world p in
  isEnabled w = (Ret true, w) ->
  ls_set_throws w = false -> tauri_missing w = false -> ipc_fails w = false ->
  no_orphans w -> (500 <= ms)%N ->
  exists id p1,
    initializeResizeListener p = (Ret (RemoveListener id), p1) /\
    In id (listeners p1) /\
    let p2 := dispatch_resize size p1 in
    let p3 := act p2 (Elapse ms) in
    length (timers (page_world p2)) = 1%nat /\
    timers (page_world p3) = [] /\
    ls_items (page_world p3) !! WINDOW_SIZE_KEY
    = Some (JSON_stringify (window_size_record size (now w + 500))) /\
    size_writes (trace (page_world p3))
    = size_writes (trace w)
      ++ [JSON_stringify (window_size_record size (now w + 500))].
Proof.
  intros w Hen Hset Htauri Hipc Horph Hms.
  exists (next_listener p). eexists. split.
  { unfold initializeResizeListener. fold w. rewrite Hen. reflexivity. }
  split; [cbn [listeners]; apply in_or_app; right; by left|].
  cbn zeta. unfold dispatch_resize. cbn [page_world listeners with_world act].
  destruct (listeners_armed (listeners p ++ [next_listener p]) (resize size w))
    as (id & next & ->).
  { eapply isEnabled_frame; [exact Hen|reflexivity..]. }
  { exact Horph. }
  { by destruct (listeners p). }
  split; [reflexivity|].
  erewrite advance_fires;
    [|reflexivity|unfold armed, resize; cbn [now with_saveTimeout with_timers
                                             with_now with_win_size]; lia..].
  rewrite deferred_save_eq by assumption. cbn [snd]. cbn zeta.
  cbn [timers ls_items trace win_size now armed resize with_now with_items emit
       with_timers with_saveTimeout with_win_size].
  split; [reflexivity|]. split; [apply lookup_insert_eq|].
  apply size_writes_snoc.
Qed.


End ListenerProperties.

(** ** A disabled service *)

Section DisabledFacts.
Context `{Runtime}.
Import WindowPersistenceService.




End DisabledFacts.

Section DisabledProperties.
Context `{Runtime}.
Import WindowPersistenceService.


End DisabledProperties.

(* ================================================================== *)
(** * The properties above on concrete inputs *)
(* ================================================================== *)

Section ConsentRuns.
Import ConsentManager Scenarios.
#[local] Existing Instance Sample.runtime.

(** X1, on a fresh world. *)
Lemma initialize_first_run_writes_once_witness :
  exists uid sid r w',
    fst (generateAnonymousId (Sample.world 0)) = Ret uid /\
    initialize (Sample.world 0) = (Ret r, w') /\ settings w' = r /\
    r = JObj [("enabled", JBool false); ("hasConsented", JBool false);
              ("hasSeenBanner", JBool false);
              ("userId", JStr uid); ("sessionId", JStr sid)] /\
    let persisted :=
      JSON_stringify (JObj [("enabled", JBool false); ("hasConsented", JBool false);
                            ("hasSeenBanner", JBool false); ("userId", JStr uid)]) in
    trace w' = trace (Sample.world 0)
               ++ [EvSetItem ANALYTICS_STORAGE_KEY persisted] /\
    (ls_set_throws (Sample.world 0) = false ->
     ls_items w' !! ANALYTICS_STORAGE_KEY = Some persisted).
Proof.
  apply (initialize_first_run_writes_once (Sample.world 0)); reflexivity.
Defined.

(** X2, on [complete_record]. *)
Lemma initialize_keeps_complete_record_witness :
  exists sid r w',
    fst (generateSessionId returning_world) = Ret sid /\
    initialize returning_world = (Ret r, w') /\ settings w' = r /\
    r = JObj (prop_store "sessionId" (JStr sid) complete_fields) /\
    field r "userId" = field (JObj complete_fields) "userId" /\
    field r "hasSeenBanner" = JBool true /\
    trace w' = trace returning_world /\ ls_items w' = ls_items returning_world.
Proof.
  apply (initialize_keeps_complete_record returning_world complete_record
           complete_fields (JBool true));
    try reflexivity; vm_compute; try reflexivity; discriminate.
Defined.

(** X4, on a fresh world. *)
Lemma initialize_twice_same_userId_witness :
  let w1 := snd (initialize (Sample.world 0)) in
  exists r2 w2,
    initialize w1 = (Ret r2, w2) /\
    field r2 "userId" = JStr zero_uuid /\
    field (settings w1) "userId" = JStr zero_uuid /\
    trace w2 = trace w1.
Proof.
  apply (@initialize_twice_same_userId Sample.runtime (Sample.world 0) zero_uuid).
  - reflexivity.
  - reflexivity.
  - reflexivity.
  - vm_compute. reflexivity.
  - vm_compute. discriminate.
  - vm_compute. reflexivity.
Defined.

(** X5, on a fresh world, which holds no record. *)
Lemma accessors_without_record_witness :
  hasConsented (Sample.world 0) = (Ret false, Sample.world 0) /\
  hasSeenBanner (Sample.world 0) = (Ret false, Sample.world 0) /\
  isEnabled (Sample.world 0) = (Ret false, Sample.world 0) /\
  (exists uid,
     fst (generateAnonymousId (Sample.world 0)) = Ret uid /\
     getUserId (Sample.world 0)
     = (Ret (JStr uid), with_rng_pos (rng_pos (Sample.world 0) + 31) (Sample.world 0))) /\
  (exists sid,
     fst (generateSessionId (Sample.world 0)) = Ret sid /\
     getSessionId (Sample.world 0)
     = (Ret (JStr sid), with_rng_pos (S (rng_pos (Sample.world 0))) (Sample.world 0))).
Proof.
  apply (accessors_without_record (Sample.world 0)). reflexivity.
Defined.

Lemma initialized_world_holds : settings initialized_world = JObj first_run_fields.
Proof. vm_compute. reflexivity. Qed.

(** X6, on [initialized_world]. *)
Lemma grantConsent_record_held_witness :
  exists w',
    grantConsent initialized_world = (Ret tt, w') /\
    field (settings w') "enabled" = JBool true /\
    field (settings w') "hasConsented" = JBool true /\
    field (settings w') "hasSeenBanner" = JBool true /\
    field (settings w') "consentDate" = JStr "2023-11-14T22:13:20.000Z" /\
    ls_items w' !! ANALYTICS_STORAGE_KEY = Some (JSON_stringify (settings w')).
Proof.
  destruct (grantConsent_record_held initialized_world first_run_fields
              initialized_world_holds)
    as (w' & E & Hen & Hcons & Hseen & Hdate & _ & Hstored).
  exists w'. split; [exact E|]. split; [exact Hen|]. split; [exact Hcons|].
  split; [exact Hseen|]. split; [exact Hdate|]. apply Hstored. reflexivity.
Defined.

(** X7, on [initialized_world]. *)
Lemma revokeConsent_record_held_witness :
  exists w',
    revokeConsent initialized_world = (Ret tt, w') /\
    field (settings w') "enabled" = JBool false /\
    field (settings w') "hasSeenBanner" = JBool true /\
    field (settings w') "consentDate" = JStr "2023-11-14T22:13:20.000Z" /\
    field (settings w') "hasConsented" = JBool false.
Proof.
  destruct (revokeConsent_record_held initialized_world first_run_fields
              initialized_world_holds)
    as (w' & E & Hen & Hseen & Hdate & Hcons & _).
  exists w'. split; [exact E|]. split; [exact Hen|]. split; [exact Hseen|].
  split; [exact Hdate|]. exact Hcons.
Defined.

(** X8, on [initialized_world] with a storage that refuses writes. *)
Lemma grantConsent_survives_write_failure_witness :
  let w := refuse_writes initialized_world in
  exists w',
    grantConsent w = (Ret tt, w') /\
    settings w' = JObj (granted first_run_fields (now w)) /\
    ls_items w' = ls_items w.
Proof.
  apply (@grantConsent_survives_write_failure Sample.runtime
           (refuse_writes initialized_world) first_run_fields).
  - vm_compute. reflexivity.
  - reflexivity.
Defined.

(** X9, on a fresh world. *)
Lemma grantConsent_initializes_first_witness :
  exists uid w' first,
    fst (generateAnonymousId (Sample.world 0)) = Ret uid /\
    grantConsent (Sample.world 0) = (Ret tt, w') /\
    field (settings w') "userId" = JStr uid /\
    field (settings w') "enabled" = JBool true /\
    field (settings w') "hasConsented" = JBool true /\
    field (settings w') "hasSeenBanner" = JBool true /\
    field (settings w') "consentDate" = JStr "2023-11-14T22:13:20.000Z" /\
    trace w' = [EvSetItem ANALYTICS_STORAGE_KEY first;
                EvSetItem ANALYTICS_STORAGE_KEY (JSON_stringify (settings w'))].
Proof.
  destruct (grantConsent_initializes_first (Sample.world 0) eq_refl eq_refl eq_refl)
    as (uid & w' & first & Huid & E & Hu & Hen & Hcons & Hseen & Hdate & Htrace).
  exists uid, w', first. split; [exact Huid|]. split; [exact E|].
  split; [exact Hu|]. split; [exact Hen|]. split; [exact Hcons|].
  split; [exact Hseen|]. split; [exact Hdate|exact Htrace].
Defined.

(** X10, on [initialized_world], with a storage that takes the write and
    with one that refuses it. *)
Lemma deleteAllData_replaces_stored_record_witness :
  ls_items (snd (deleteAllData initialized_world)) !! ANALYTICS_STORAGE_KEY
  = Some (JSON_stringify (settings (snd (deleteAllData initialized_world)))) /\
  ls_items (snd (deleteAllData (refuse_writes initialized_world)))
    !! ANALYTICS_STORAGE_KEY = None.
Proof.
  split.
  - apply (deleteAllData_replaces_stored_record initialized_world); reflexivity.
  - apply (deleteAllData_replaces_stored_record (refuse_writes initialized_world));
      reflexivity.
Defined.

(** X11, on [initialized_world]. *)
Lemma initialize_after_deleteAllData_witness :
  exists r2 w2,
    initialize (snd (deleteAllData initialized_world)) = (Ret r2, w2) /\
    field r2 "userId"
    = field (settings (snd (deleteAllData initialized_world))) "userId" /\
    field r2 "hasSeenBanner" = JBool false /\
    field r2 "enabled" = JBool false /\
    trace w2 = trace (snd (deleteAllData initialized_world)).
Proof.
  apply (initialize_after_deleteAllData initialized_world).
  - reflexivity.
  - reflexivity.
  - reflexivity.
  - vm_compute. discriminate.
  - vm_compute. reflexivity.
Defined.

(** X12, on [initialized_world]. *)
Lemma revoke_after_grant_keeps_history_witness :
  let w2 := snd (revokeConsent (snd (grantConsent initialized_world))) in
  fst (revokeConsent (snd (grantConsent initialized_world))) = Ret tt /\
  isEnabled w2 = (Ret false, w2) /\
  hasConsented w2 = (Ret true, w2) /\
  hasSeenBanner w2 = (Ret true, w2).
Proof.
  apply (revoke_after_grant_keeps_history initialized_world first_run_fields).
  exact initialized_world_holds.
Defined.

End ConsentRuns.

Section WindowRuns.
Import WindowPersistenceService Scenarios.
#[local] Existing Instance Sample.runtime.

(** X14, on a stored string that is not JSON. *)
Lemma restoreWindowSize_nothing_to_restore_witness :
  restoreWindowSize corrupt_size_world = (Ret false, corrupt_size_world).
Proof.
  apply (restoreWindowSize_nothing_to_restore corrupt_size_world); [reflexivity|].
  right. right. exists "{bad". split; [reflexivity|]. vm_compute. exact I.
Defined.


(** X16, on the 1920x1080 record and a platform that rejects the call. *)
Lemma restoreWindowSize_platform_failure_witness :
  restoreWindowSize (failing_platform hd_world)
  = (Ret false, emit (EvSetSize (JNum 1920) (JNum 1080)) (failing_platform hd_world)).
Proof.
  refine (proj2 (restoreWindowSize_platform_failure (failing_platform hd_world)
                   hd_record
                   (JObj [("width", JNum 1920); ("height", JNum 1080);
                          ("timestamp", JNum 1699999000000)])
                   1920 1080 _ _ _ _ _ _ _) _ _).
  - reflexivity.
  - vm_compute. reflexivity.
  - vm_compute. discriminate.
  - vm_compute. reflexivity.
  - reflexivity.
  - reflexivity.
  - reflexivity.
  - reflexivity.
  - reflexivity.
Defined.

(** X17, on the 200x200 record. *)
Lemma getSavedWindowSize_only_reads_witness :
  exists v,
    getSavedWindowSize small_world = (Ret v, small_world) /\
    (v <> JNull ->
     isEnabled small_world = (Ret true, small_world) /\
     exists s, ls_items small_world !! WINDOW_SIZE_KEY = Some s /\
               s <> EmptyString /\ JSON_parse s = Some v).
Proof.
  apply (getSavedWindowSize_only_reads small_world). reflexivity.
Defined.

(** X18, on a storage that cannot be read. *)
Lemma unreadable_flag_raises_everywhere_witness :
  let w := refuse_reads hd_world in
  isEnabled w = (Throw StorageError, w) /\
  getSavedWindowSize w = (Throw StorageError, w) /\
  restoreWindowSize w = (Throw StorageError, w) /\
  saveWindowSize w = (Throw StorageError, w) /\
  forall p, page_world p = w ->
            initializeResizeListener p = (Throw StorageError, p).
Proof.
  apply (unreadable_flag_raises_everywhere (refuse_reads hd_world)). reflexivity.
Defined.

(** X19, on [disabled_world]: enabling it. *)
Lemma setEnabled_then_isEnabled_witness :
  exists w',
    setEnabled true disabled_world = (Ret tt, w') /\
    isEnabled w' = (Ret true, w') /\
    ls_items w' !! WINDOW_SIZE_KEY = Some hd_record.
Proof.
  destruct (setEnabled_then_isEnabled disabled_world true eq_refl eq_refl eq_refl)
    as (w' & E & Hen & Hkeeps).
  exists w'. split; [exact E|]. split; [exact Hen|].
  destruct (Hkeeps eq_refl) as [_ Hother].
  rewrite (Hother WINDOW_SIZE_KEY) by discriminate. reflexivity.
Defined.

(** X20, on a storage that refuses writes. *)
Lemma setEnabled_false_failure_keeps_size_witness :
  let w := refuse_writes hd_world in
  exists w',
    setEnabled false w = (Throw StorageError, w') /\
    ls_items w' !! WINDOW_SIZE_KEY = Some hd_record /\
    ls_items w' = ls_items w.
Proof.
  cbn zeta.
  destruct (setEnabled_false_failure_keeps_size (refuse_writes hd_world)
              (or_introl eq_refl))
    as (w' & E & Hsize & Hset & _).
  exists w'. split; [exact E|]. split; [exact Hsize|].
  exact (proj1 (Hset eq_refl)).
Defined.

(** X21, on the 1920x1080 record. *)
Lemma clearWindowSize_forgets_size_witness :
  exists w',
    clearWindowSize hd_world = (Ret tt, w') /\
    ls_items w' !! WINDOW_SIZE_KEY = None /\
    getSavedWindowSize w' = (Ret JNull, w') /\
    restoreWindowSize w' = (Ret false, w').
Proof.
  destruct (clearWindowSize_forgets_size hd_world eq_refl)
    as (w' & E & Hgone & _ & _ & Hafter).
  exists w'. split; [exact E|]. split; [exact Hgone|].
  exact (proj2 (Hafter eq_refl)).
Defined.

(** X22, on [busy_session] from a fresh page. *)
Lemma at_most_one_save_pending_witness :
  let q := history busy_session (fresh_page (Sample.world 0)) in
  no_orphans (page_world q) /\ (length (timers (page_world q)) <= 1)%nat.
Proof.
  apply (at_most_one_save_pending busy_session (fresh_page (Sample.world 0))).
  - reflexivity.
  - cbn. lia.
Defined.

(** X23, from an 800x600 window that is 1024x768 at the next start. *)
Lemma saved_size_is_restored_witness :
  let w2 := resize (1024, 768)%Z (advance 500 (snd (saveWindowSize (Sample.world 0)))) in
  getSavedWindowSize w2
  = (Ret (window_size_record (800, 600)%Z 1700000000500), w2) /\
  exists w3, restoreWindowSize w2 = (Ret true, w3) /\ win_size w3 = (800, 600)%Z.
Proof.
  cbn zeta.
  destruct (saved_size_is_restored (Sample.world 0) 500 (1024, 768)%Z)
    as [Hsaved Hrestored].
  - reflexivity.
  - reflexivity.
  - reflexivity.
  - reflexivity.
  - reflexivity.
  - lia.
  - vm_compute. discriminate.
  - vm_compute. reflexivity.
  - split; [exact Hsaved|exact Hrestored].
Defined.


(** X25, on a platform that rejects the calls. *)
Lemma failed_deferred_save_is_dropped_witness :
  let w := failing_platform (Sample.world 0) in
  let w' := advance 500 (snd (saveWindowSize w)) in
  ls_items w' = ls_items w /\ timers w' = [] /\ trace w' = trace w.
Proof.
  cbn zeta.
  destruct (failed_deferred_save_is_dropped (failing_platform (Sample.world 0)) 500)
    as (Hitems & Htimers & Htrace & _).
  - reflexivity.
  - reflexivity.
  - lia.
  - right. left. reflexivity.
  - split; [exact Hitems|]. split; [exact Htimers|].
    apply Htrace. right. reflexivity.
Defined.

(** X26, on [disabled_world]. *)
Lemma initializeResizeListener_disabled_stays_deaf_witness :
  let p := fresh_page disabled_world in
  exists c,
    initializeResizeListener p = (Ret c, p) /\
    (forall q, run_cleanup c q = q) /\
    forall size,
      timers (page_world (dispatch_resize size (call (setEnabled true) p))) = [].
Proof.
  cbn zeta.
  destruct (initializeResizeListener_disabled_stays_deaf (fresh_page disabled_world)
              eq_refl)
    as (c & E & Hnoop & Hdeaf).
  exists c. split; [exact E|]. split; [exact Hnoop|].
  intros size. exact (Hdeaf eq_refl size).
Defined.

(** X27, on a fresh page whose window becomes 1024x768. *)
Lemma resize_event_is_saved_witness :
  exists id p1,
    initializeResizeListener (fresh_page (Sample.world 0))
    = (Ret (RemoveListener id), p1) /\
    let p3 := act (dispatch_resize (1024, 768)%Z p1) (Elapse 500) in
    ls_items (page_world p3) !! WINDOW_SIZE_KEY
    = Some (JSON_stringify (window_size_record (1024, 768)%Z 1700000000500)).
Proof.
  destruct (resize_event_is_saved (fresh_page (Sample.world 0)) (1024, 768)%Z 500)
    as (id & p1 & E & _ & _ & _ & Hstored & _).
  - reflexivity.
  - reflexivity.
  - reflexivity.
  - reflexivity.
  - reflexivity.
  - lia.
  - exists id, p1. split; [exact E|exact Hstored].
Defined.



End WindowRuns.
